(** * intake-bluesky: the JSONL and msgpack catalogs

    A shallow embedding of [intake_bluesky/jsonl.py] and
    [intake_bluesky/msgpack.py]: the two record codecs ([gen], [get_stop]),
    the change-tracking loader ([_load]) and the catalog facade
    ([__init__], [search]).

    Conventions.
    - A Python value is a [pyval]; a Python [str] is a Rocq [string], one
      [ascii] per character.
    - [os.path.getmtime] yields a float that is never NaN; the model keeps it
      as an integer code, so that [==] on two of them is equality.
    - An exception is a value of [exn]; code that may raise returns a
      [result].
    - The filesystem is a snapshot, read but never written by this code. *)

From Stdlib Require Import ZArith String Ascii List.
From Stdlib Require Import Floats.SpecFloat.
From stdpp Require Import base option list gmap strings fin_maps.

Open Scope string_scope.
Open Scope list_scope.
Open Scope Z_scope.

(** ** Python values *)

#[local] Set Warnings "-register-all".

Inductive pyval : Type :=
| PyNone
| PyBool (b : bool)
| PyInt (n : Z)
| PyFloat (f : spec_float)
| PyStr (s : string)
| PyList (l : list pyval)
| PyDict (d : list (string * pyval)).

Inductive exn : Type :=
| JSONDecodeError
| ValueError
| TypeError
| UnpackException.

Inductive result (A : Type) : Type :=
| Ok (a : A)
| Raise (e : exn).
Arguments Ok {A} a.
Arguments Raise {A} e.

(** [bool(v)] *)
Definition truthy (v : pyval) : bool :=
  match v with
  | PyNone => false
  | PyBool b => b
  | PyInt n => negb (n =? 0)
  | PyFloat (S754_zero _) => false
  | PyFloat _ => true
  | PyStr s => negb (String.eqb s "")
  | PyList l => match l with [] => false | _ => true end
  | PyDict d => match d with [] => false | _ => true end
  end.

(** [v == s] for a [str] literal [s] *)
Definition py_eq_str (v : pyval) (s : string) : bool :=
  match v with
  | PyStr t => String.eqb t s
  | _ => false
  end.

(** The items that iterating over [v] yields, [None] when [v] is not
    iterable: a list gives its elements, a dict its keys, a str its
    characters. *)
Definition py_iter (v : pyval) : option (list pyval) :=
  match v with
  | PyList l => Some l
  | PyDict d => Some (map (fun kv => PyStr (fst kv)) d)
  | PyStr s => Some (map (fun c => PyStr (String c EmptyString)) (list_ascii_of_string s))
  | _ => None
  end.

(** The assignment [name, doc = v]. *)
Definition unpack2 (v : pyval) : result (pyval * pyval) :=
  match py_iter v with
  | None => Raise TypeError
  | Some [a; b] => Ok (a, b)
  | Some _ => Raise ValueError
  end.

(** ** Text files *)

Definition LF : ascii := ascii_of_nat 10.

(** [file.readline()] on the unread text [s]: the line read, with its
    terminator, and what is left to read. At the end of the file the line is
    empty. *)
Fixpoint readline (s : string) : string * string :=
  match s with
  | EmptyString => (EmptyString, EmptyString)
  | String c rest =>
      if Ascii.eqb c LF then (String c EmptyString, rest)
      else let '(l, r) := readline rest in (String c l, r)
  end.

(** [for line in file]: every line of the text, each with its terminator. *)
Fixpoint splitlines (s : string) : list string :=
  match s with
  | EmptyString => []
  | String c rest =>
      if Ascii.eqb c LF then String c EmptyString :: splitlines rest
      else match splitlines rest with
           | [] => [String c EmptyString]
           | l :: ls => String c l :: ls
           end
  end.

Definition is_space (c : ascii) : bool :=
  let n := nat_of_ascii c in
  ((9 <=? n) && (n <=? 13))%nat || (n =? 32)%nat.

Fixpoint has_content (s : string) : bool :=
  match s with
  | EmptyString => false
  | String c rest => negb (is_space c) || has_content rest
  end.

Fixpoint chomp (s : string) : string :=
  match s with
  | EmptyString => EmptyString
  | String c rest =>
      match rest with
      | EmptyString => if Ascii.eqb c LF then EmptyString else s
      | _ => String c (chomp rest)
      end
  end.

(** Modelled from the spec: [tail] of [core.py], which is not among the
    sources. Its one-element result holds the text of the last line that
    has non-whitespace content, or [None] when the file is empty or has
    only blank lines. *)
Definition tail (text : string) : option string :=
  last (filter (fun l => Is_true (has_content l)) (map chomp (splitlines text))).

(** ** Binary files *)

(** What iterating over [msgpack.Unpacker(file, **UNPACK_OPTIONS)] gives:
    the decoded objects in order, until the data runs out (iteration stops,
    also in the middle of a frame) or a frame is malformed (it raises). *)
Inductive unpacker : Type :=
| Exhausted
| Malformed
| Yield (o : pyval) (rest : unpacker).

(** ** The filesystem *)

(** A path pattern given to the catalog: a [str] or a [pathlib.Path]. *)
Inductive pathlike : Type :=
| Str (s : string)
| Path (s : string).

(** What the code reads of the filesystem: [glob.glob], [os.path.getmtime],
    a file opened in text mode and a file under the msgpack unpacker. *)
Record filesystem : Type := {
  glob : pathlike -> list string;
  getmtime : string -> Z;
  read_text : string -> string;
  read_msgpack : string -> unpacker
}.

(** ** Effects of a refresh cycle *)

(** What a cycle does, in order: writes to the file ledger
    [_filename_to_mtime], files opened to read their first record, and calls
    [self.upsert(start_doc, stop_doc, gen, (filename,), {})] of the base
    class. *)
Inductive event : Type :=
| Marked (filename : string) (mtime : Z)
| Opened (filename : string)
| Upserted (start_doc stop_doc : pyval) (filename : string).

(** The file that an event is about. *)
Definition event_file (e : event) : string :=
  match e with
  | Marked f _ => f
  | Opened f => f
  | Upserted _ _ f => f
  end.

(** A computation over the file ledger that logs its events and may raise.
    The ledger and the log survive a raise: the dict is mutated in place. *)
Definition M (A : Type) : Type :=
  gmap string Z -> gmap string Z * list event * result A.

#[export] Instance M_ret : MRet M := fun A a led => (led, [], Ok a).

#[export] Instance M_bind : MBind M := fun A B k m led =>
  match m led with
  | (led1, tr1, Ok a) => let '(led2, tr2, r) := k a led1 in (led2, tr1 ++ tr2, r)
  | (led1, tr1, Raise e) => (led1, tr1, Raise e)
  end.

Definition lift {A} (r : result A) : M A := fun led => (led, [], r).

Definition emit (e : event) : M unit := fun led => (led, [e], Ok tt).

(** [self._filename_to_mtime.get(filename)] *)
Definition ledger_get (filename : string) : M (option Z) :=
  fun led => (led, [], Ok (led !! filename)).

(** [self._filename_to_mtime[filename] = mtime] *)
Definition ledger_set (filename : string) (mtime : Z) : M unit :=
  fun led => (<[filename := mtime]> led, [Marked filename mtime], Ok tt).

(** [mtime == known], where [known] may be [None] *)
Definition mtime_eq (mtime : Z) (known : option Z) : bool :=
  match known with
  | Some m => mtime =? m
  | None => false
  end.

(** [for x in l: body(x)] *)
Fixpoint for_each {A} (body : A -> M unit) (l : list A) : M unit :=
  match l with
  | [] => mret tt
  | x :: rest => body x ;; for_each body rest
  end.

(** ** The change-tracking loop

    The body of the loop of [_load] is the same in both catalogs but for
    the block that reads the first record, so it is written once over that
    block and over [get_stop]. Reading the first record gives [None] where
    the source does [continue]. *)

Section Loader.

Variable fs : filesystem.
Variable first_record : string -> result (option pyval).
Variable get_stop : string -> result pyval.

(** The body of the inner loop: jsonl.py lines 92-106, msgpack.py lines
    87-100. *)
Definition load_file (filename : string) : M unit :=
  let mtime := getmtime fs filename in
  known ← ledger_get filename;
  if mtime_eq mtime known then mret tt
  else
    ledger_set filename mtime;;
    emit (Opened filename);;
    first ← lift (first_record filename);
    match first with
    | None => mret tt
    | Some start_doc =>
        stop_doc ← lift (get_stop filename);
        emit (Upserted start_doc stop_doc filename)
    end.

End Loader.

(** [for path in self.paths: for filename in glob.glob(path): body] *)
Definition for_each_file (fs : filesystem) (body : string -> M unit)
    (paths : list pathlike) : M unit :=
  for_each (fun path => for_each body (glob fs path)) paths.

(** ** The JSONL catalog (jsonl.py) *)

Module Jsonl.
Section Codec.

(** [json.loads], the decoder of the standard library: [None] stands for
    [json.JSONDecodeError]. *)
Variable json_loads : string -> option pyval.

(** [gen]: the records of the file in order; the generator stops at the
    first line that does not give a record, raising there. *)
Fixpoint gen_lines (ls : list string) : list (pyval * pyval) * option exn :=
  match ls with
  | [] => ([], None)
  | line :: rest =>
      match json_loads line with
      | None => ([], Some JSONDecodeError)
      | Some v =>
          match unpack2 v with
          | Raise e => ([], Some e)
          | Ok (name, doc) =>
              let '(rs, e) := gen_lines rest in ((name, doc) :: rs, e)
          end
      end
  end.

Definition gen (text : string) : list (pyval * pyval) * option exn :=
  gen_lines (splitlines text).

(** [get_stop], lines 40-51. *)
Definition get_stop (text : string) : result pyval :=
  let stop_doc := PyNone in
  match tail text with
  | None => Ok stop_doc
  | Some lastline =>
      if String.eqb lastline "" then Ok stop_doc
      else
        match json_loads lastline with
        | None => Ok stop_doc
        | Some v =>
            match unpack2 v with
            | Raise e => Raise e
            | Ok (name, doc) =>
                if py_eq_str name "stop" then Ok doc else Ok stop_doc
            end
        end
  end.

(** The [with open(filename, 'r')] block of [_load], lines 97-104. *)
Definition first_record (text : string) : result (option pyval) :=
  let '(line1, rest) := readline text in
  match json_loads line1 with
  | None =>
      let '(line2, _) := readline rest in
      if String.eqb line2 "" then Ok None else Raise JSONDecodeError
  | Some v =>
      match unpack2 v with
      | Raise e => Raise e
      | Ok (name, start_doc) => Ok (Some start_doc)
      end
  end.

(** The body of the loop of [_load], lines 92-106. *)
Definition load_file (fs : filesystem) : string -> M unit :=
  load_file fs
    (fun filename => first_record (read_text fs filename))
    (fun filename => get_stop (read_text fs filename)).

(** [_load], lines 89-106. *)
Definition _load (fs : filesystem) (paths : list pathlike) : M unit :=
  for_each_file fs (load_file fs) paths.

End Codec.
End Jsonl.

(** ** The msgpack catalog (msgpack.py) *)

Module Msgpack.

(** [gen]: [yield from] the unpacker. *)
Definition gen (u : unpacker) : unpacker := u.

(** [get_stop], lines 43-46: the loop returns at the first record named
    'stop'; falling off the end of the loop returns [None]. *)
Fixpoint get_stop (u : unpacker) : result pyval :=
  match u with
  | Exhausted => Ok PyNone
  | Malformed => Raise UnpackException
  | Yield o rest =>
      match unpack2 o with
      | Raise e => Raise e
      | Ok (name, doc) =>
          if py_eq_str name "stop" then Ok doc else get_stop rest
      end
  end.

(** The [with open(filename, 'rb')] block of [_load], lines 92-98:
    [next(unpacker)] raises [StopIteration] when the data has run out. *)
Definition first_record (u : unpacker) : result (option pyval) :=
  match u with
  | Exhausted => Ok None
  | Malformed => Raise UnpackException
  | Yield o _ =>
      match unpack2 o with
      | Raise e => Raise e
      | Ok (name, start_doc) => Ok (Some start_doc)
      end
  end.

(** The body of the loop of [_load], lines 87-100. *)
Definition load_file (fs : filesystem) : string -> M unit :=
  load_file fs
    (fun filename => first_record (read_msgpack fs filename))
    (fun filename => get_stop (read_msgpack fs filename)).

(** [_load], lines 84-100. *)
Definition _load (fs : filesystem) (paths : list pathlike) : M unit :=
  for_each_file fs (load_file fs) paths.

End Msgpack.

(** ** The catalog facade *)

Inductive catalog_class : Type :=
| BlueskyJSONLCatalog
| BlueskyMsgpackCatalog.

(** The [paths] argument of the constructor: one path or a list of paths. *)
Inductive paths_arg : Type :=
| OnePath (p : pathlike)
| PathList (l : list pathlike).

(** Modelled from the spec: the attributes that the base classes
    ([BlueskyInMemoryCatalog] of in_memory.py and intake's [Catalog], which
    are not among the sources) keep from the arguments of the constructor
    and that [search] reads back: [self.filler.handler_registry],
    [self.getenv], [self.getshell], [self.auth], [self.metadata] and
    [self.storage_options]. *)
Record base_attrs : Type := {
  handler_registry : pyval;
  name : pyval;
  getenv : pyval;
  getshell : pyval;
  auth : pyval;
  metadata : pyval;
  storage_options : pyval
}.

(** An instance of one of the two catalogs. The ledger is the one attribute
    that this code mutates; the list of paths is handed on by [search] but
    never changed, so it is kept as a value. *)
Record catalog : Type := {
  cls : catalog_class;
  paths : list pathlike;
  _filename_to_mtime : gmap string Z;
  _query : pyval;
  attrs : base_attrs
}.

Definition set_filename_to_mtime (c : catalog) (led : gmap string Z) : catalog :=
  {| cls := cls c; paths := paths c; _filename_to_mtime := led;
     _query := _query c; attrs := attrs c |}.

(** [x or {}] *)
Definition or_empty (x : pyval) : pyval :=
  if truthy x then x else PyDict [].

(** The statement [if self._query: query = {'$and': [self._query, query]}]
    of [search]: the [query] that is then given to the constructor. *)
Definition search_query (current query : pyval) : pyval :=
  if truthy current then PyDict [("$and", PyList [current; query])] else query.

(** The keyword arguments that [search] gives to the constructor, from the
    attributes of [self]; the copy of the metadata is the value itself. *)
Definition derived_attrs (a : base_attrs) : base_attrs :=
  {| handler_registry := handler_registry a;
     name := PyStr "search results";
     getenv := getenv a;
     getshell := getshell a;
     auth := auth a;
     metadata := or_empty (metadata a);
     storage_options := storage_options a |}.

Module Catalog.
Section Facade.

Variable json_loads : string -> option pyval.

(** What the constructor of the base class, which is not among the sources,
    keeps in [self._query] for its argument [query]. *)
Variable store_query : pyval -> pyval.

(** The instances that exist, by identity: each has a ledger of its own,
    the dict that its constructor creates. *)
Abbreviation store := (gmap nat catalog).

(** [__init__] of both classes (jsonl.py lines 80-87, msgpack.py lines
    75-82) on a new instance of class [k]; the identity of the instance is
    returned with the store. *)
Definition __init__ (st : store) (k : catalog_class) (paths : paths_arg)
    (query : pyval) (kw : base_attrs) : store * nat :=
  let paths := match paths with OnePath p => [p] | PathList l => l end in
  let self := fresh (dom st) in
  (<[self := {| cls := k; paths := paths; _filename_to_mtime := ∅;
                _query := store_query query; attrs := kw |}]> st, self).

(** [search] of both classes (jsonl.py lines 116-128, msgpack.py lines
    110-122): [type(self)] is the class of [self]. *)
Definition search (st : store) (self : nat) (query : pyval) : option (store * nat) :=
  c ← st !! self;
  let query := search_query (_query c) query in
  Some (__init__ st (cls c) (PathList (paths c)) query (derived_attrs (attrs c))).

(** [self._load] is the method of the class of [self]. *)
Definition class_load (k : catalog_class) : filesystem -> list pathlike -> M unit :=
  match k with
  | BlueskyJSONLCatalog => Jsonl._load json_loads
  | BlueskyMsgpackCatalog => Msgpack._load
  end.

(** The body of its loop. *)
Definition class_load_file (k : catalog_class) : filesystem -> string -> M unit :=
  match k with
  | BlueskyJSONLCatalog => Jsonl.load_file json_loads
  | BlueskyMsgpackCatalog => Msgpack.load_file
  end.

(** [self._load()]: one refresh cycle of the instance [self]. The events of
    the cycle and its outcome are returned with the store. *)
Definition _load (fs : filesystem) (st : store) (self : nat)
    : option (store * list event * result unit) :=
  c ← st !! self;
  let '(led, tr, r) := class_load (cls c) fs (paths c) (_filename_to_mtime c) in
  Some (<[self := set_filename_to_mtime c led]> st, tr, r).

End Facade.
End Catalog.

(** The files that a cycle visits, in order. *)
Definition matched (fs : filesystem) (paths : list pathlike) : list string :=
  flat_map (glob fs) paths.

(** ** Specification-side definitions and sample data *)

(** The well-formed binary file that holds the records [recs]: each record
    is the two-element array [[name, doc]]. *)
Definition stream_of (recs : list (pyval * pyval)) : unpacker :=
  fold_right (fun r u => Yield (PyList [fst r; snd r]) u) Exhausted recs.

Definition is_stop (r : pyval * pyval) : bool := py_eq_str (fst r) "stop".

(** The document of the first record named 'stop', [None] without one. *)
Definition first_stop (recs : list (pyval * pyval)) : pyval :=
  match List.find is_stop recs with
  | Some r => snd r
  | None => PyNone
  end.

(** A file is not ready for a catalog of class [k]: as text, its first
    line does not decode and it has no second line; under the unpacker, it
    has no record. *)
Definition not_ready (json_loads : string -> option pyval) (k : catalog_class)
    (fs : filesystem) (f : string) : Prop :=
  match k with
  | BlueskyJSONLCatalog =>
      json_loads (hd "" (splitlines (read_text fs f))) = None
      /\ (length (splitlines (read_text fs f)) <= 1)%nat
  | BlueskyMsgpackCatalog => read_msgpack fs f = Exhausted
  end.

Definition dq : string := String (ascii_of_nat 34) EmptyString.

Definition quoted (s : string) : string := String.append dq (String.append s dq).

(** The line [["start", {"uid": "abc"}]] and the line [["stop", {}]]. *)
Definition start_line : string :=
  String.concat "" ["["; quoted "start"; ", {"; quoted "uid"; ": "; quoted "abc"; "}]"].

Definition stop_line : string :=
  String.concat "" ["["; quoted "stop"; ", {}]"].

(** [json.loads] on the texts of the examples below; it skips the line
    terminator as [json.loads] skips white space. Every other text, among
    them the empty one, is taken as not decodable. *)
Definition sample_loads (s : string) : option pyval :=
  let t := chomp s in
  if String.eqb t start_line then
    Some (PyList [PyStr "start"; PyDict [("uid", PyStr "abc")]])
  else if String.eqb t stop_line then
    Some (PyList [PyStr "stop"; PyDict []])
  else if String.eqb t "[1, 2, 3]" then
    Some (PyList [PyInt 1; PyInt 2; PyInt 3])
  else if String.eqb t "5" then Some (PyInt 5)
  else None.

(** A filesystem with the one file [runs/a], matched by the pattern
    [runs/*]. *)
Definition sample_fs (mtime : Z) (text : string) (u : unpacker) : filesystem :=
  {| glob := fun p => match p with
                      | Str s => if String.eqb s "runs/*" then ["runs/a"] else []
                      | Path _ => []
                      end;
     getmtime := fun _ => mtime;
     read_text := fun _ => text;
     read_msgpack := fun _ => u |}.

(** The same with an empty file, and with a file whose last record is not
    the 'stop' record. *)
Definition empty_file_fs : filesystem := sample_fs 5 "" Exhausted.

Definition stop_then_event : list (pyval * pyval) :=
  [(PyStr "start", PyDict [("uid", PyStr "abc")]);
   (PyStr "stop", PyDict [("exit_status", PyStr "success")]);
   (PyStr "event", PyDict [])].

(** A text file whose last line is a JSON array of three numbers. *)
Definition three_numbers_text : string :=
  String.concat (String LF "") [start_line; "[1, 2, 3]"; ""].

(** The same with a file whose first line is not JSON and that has a second
    line. *)
Definition malformed_fs : filesystem :=
  sample_fs 5 (String.concat (String LF "") ["oops"; start_line; ""]) Exhausted.

(** The queries [{"a": 1}] and [{"b": 2}] and two ways to combine them. *)
Definition query_a : pyval := PyDict [("a", PyInt 1)].
Definition query_b : pyval := PyDict [("b", PyInt 2)].

Definition and_ (qs : list pyval) : pyval := PyDict [("$and", PyList qs)].

Definition nested_filter : pyval := and_ [and_ [PyDict []; query_a]; query_b].
Definition flat_filter : pyval := and_ [query_a; query_b].

(** The stored filter of the catalog that two searches give, from a new
    catalog constructed with no filter. *)
Definition filter_after_two_searches (store_query : pyval -> pyval)
    (st : gmap nat catalog) (k : catalog_class) (paths : paths_arg)
    (kw : base_attrs) (q1 q2 : pyval) : option pyval :=
  let '(st0, c0) := Catalog.__init__ store_query st k paths PyNone kw in
  '(st1, c1) ← Catalog.search store_query st0 c0 q1;
  '(st2, c2) ← Catalog.search store_query st1 c1 q2;
  c ← st2 !! c2;
  Some (_query c).

(** The conditions that a filter joins: [$and] is taken apart and the
    empty filter has none. *)
Fixpoint conjuncts (q : pyval) : list pyval :=
  match q with
  | PyDict [] => []
  | PyDict [(k, PyList qs)] =>
      if String.eqb k "$and" then flat_map conjuncts qs else [q]
  | _ => [q]
  end.

(** A way to match filters for the examples: a document is the list of the
    conditions that it meets. *)
Definition sample_sat (q : pyval) (doc : list pyval) : Prop :=
  Forall (fun c => c ∈ doc) (conjuncts q).

Definition no_attrs : base_attrs :=
  {| handler_registry := PyNone; name := PyNone; getenv := PyBool true;
     getshell := PyBool true; auth := PyNone; metadata := PyNone;
     storage_options := PyNone |}.

(** A JSONL catalog on the pattern [runs/*], with a given ledger. *)
Definition jsonl_catalog (led : gmap string Z) : catalog :=
  {| cls := BlueskyJSONLCatalog; paths := [Str "runs/*"];
     _filename_to_mtime := led; _query := PyDict []; attrs := no_attrs |}.

(** ** Definitions for the further properties *)

(** The block that reads the first record, and [get_stop], of the class
    [k] on the file [f]. *)
Definition class_first_record (json_loads : string -> option pyval)
    (k : catalog_class) (fs : filesystem) (f : string) : result (option pyval) :=
  match k with
  | BlueskyJSONLCatalog => Jsonl.first_record json_loads (read_text fs f)
  | BlueskyMsgpackCatalog => Msgpack.first_record (read_msgpack fs f)
  end.

Definition class_get_stop (json_loads : string -> option pyval)
    (k : catalog_class) (fs : filesystem) (f : string) : result pyval :=
  match k with
  | BlueskyJSONLCatalog => Jsonl.get_stop json_loads (read_text fs f)
  | BlueskyMsgpackCatalog => Msgpack.get_stop (read_msgpack fs f)
  end.

(** How often a trace opens the file [f], and how often it upserts it. *)
Definition is_opened (f : string) (e : event) : bool :=
  match e with
  | Opened g => String.eqb g f
  | _ => false
  end.

Definition is_upserted (f : string) (e : event) : bool :=
  match e with
  | Upserted _ _ g => String.eqb g f
  | _ => false
  end.

Definition count_opened (f : string) (tr : list event) : nat :=
  length (List.filter (is_opened f) tr).

Definition count_upserted (f : string) (tr : list event) : nat :=
  length (List.filter (is_upserted f) tr).

(** The line [l] of a text file gives the record [r]: it decodes, and the
    value unpacks into the name and the document. *)
Definition line_gives (json_loads : string -> option pyval) (l : string)
    (r : pyval * pyval) : Prop :=
  exists v, json_loads l = Some v /\ unpack2 v = Ok r.

(** The line [l] gives no record, and [gen] raises [e] on it: it does not
    decode, or the value does not unpack into a name and a document. *)
Definition line_fails (json_loads : string -> option pyval) (l : string)
    (e : exn) : Prop :=
  (json_loads l = None /\ e = JSONDecodeError)
  \/ (exists v, json_loads l = Some v /\ unpack2 v = Raise e).

(** The stop document that the last of the records [recs] stands for. *)
Definition last_stop (recs : list (pyval * pyval)) : pyval :=
  match last recs with
  | Some (name, doc) => if py_eq_str name "stop" then doc else PyNone
  | None => PyNone
  end.

(** The records [recs] as two-element arrays, and then what [rest]
    gives. *)
Definition yield_all (recs : list (pyval * pyval)) (rest : unpacker) : unpacker :=
  fold_right (fun r u => Yield (PyList [fst r; snd r]) u) rest recs.

(** One search after the other, each on the catalog that the one before
    gave. *)
Fixpoint search_all (store_query : pyval -> pyval) (st : gmap nat catalog)
    (self : nat) (qs : list pyval) : option (gmap nat catalog * nat) :=
  match qs with
  | [] => Some (st, self)
  | q :: qs =>
      match Catalog.search store_query st self q with
      | Some (st', derived) => search_all store_query st' derived qs
      | None => None
      end
  end.

(** The filter that the searches [qs] build on the filter [q0]. *)
Definition nest_filters (q0 : pyval) (qs : list pyval) : pyval :=
  fold_left (fun acc q => and_ [acc; q]) qs q0.

(** A filesystem where the patterns [runs/*] and [runs/a] both match the
    file [runs/a]. *)
Definition overlap_fs (text : string) : filesystem :=
  {| glob := fun p => match p with
                      | Str s => if String.eqb s "runs/*" then ["runs/a"]
                                 else if String.eqb s "runs/a" then ["runs/a"]
                                 else []
                      | Path _ => []
                      end;
     getmtime := fun _ => 5;
     read_text := fun _ => text;
     read_msgpack := fun _ => Exhausted |}.

(** A filesystem with the files [runs/a], [runs/b] and [runs/c] under the
    pattern [runs/*]: the first line of [runs/b] is not JSON and it has a
    second line. *)
Definition three_files_fs : filesystem :=
  {| glob := fun p => match p with
                      | Str s => if String.eqb s "runs/*"
                                 then ["runs/a"; "runs/b"; "runs/c"] else []
                      | Path _ => []
                      end;
     getmtime := fun _ => 5;
     read_text := fun f =>
       if String.eqb f "runs/b"
       then String.concat (String LF "") ["oops"; start_line; ""]
       else String.concat (String LF "") [start_line; stop_line; ""];
     read_msgpack := fun _ => Exhausted |}.

(** A text file with a start record and a stop record. *)
Definition start_stop_text : string :=
  String.concat (String LF "") [start_line; stop_line; ""].

(** * Properties *)

(** ** The loader monad *)

Lemma bind_ok {A B} (m : M A) (k : A -> M B) led led1 tr1 a :
  m led = (led1, tr1, Ok a) ->
  (m ≫= k) led = (let '(led2, tr2, r) := k a led1 in (led2, tr1 ++ tr2, r)).
Proof. intros H. unfold mbind, M_bind. now rewrite H. Qed.

Lemma bind_raise {A B} (m : M A) (k : A -> M B) led led1 tr1 e :
  m led = (led1, tr1, Raise e) ->
  (m ≫= k) led = (led1, tr1, Raise e).
Proof. intros H. unfold mbind, M_bind. now rewrite H. Qed.

Lemma for_each_cons {A} (body : A -> M unit) x l led :
  for_each body (x :: l) led = (body x ≫= fun _ => for_each body l) led.
Proof. reflexivity. Qed.

Lemma for_each_app {A} (body : A -> M unit) l1 l2 led :
  for_each body (l1 ++ l2) led
  = (for_each body l1 ≫= fun _ => for_each body l2) led.
Proof.
  revert led. induction l1 as [|x l1 IH]; intros led.
  - simpl. unfold mbind, M_bind, mret, M_ret.
    destruct (for_each body l2 led) as [[led2 tr2] r]. reflexivity.
  - simpl. unfold mbind, M_bind in *.
    destruct (body x led) as [[led1 tr1] [[]|e]]; [|reflexivity].
    rewrite IH.
    destruct (for_each body l1 led1) as [[led2 tr2] [[]|e]]; [|reflexivity].
    destruct (for_each body l2 led2) as [[led3 tr3] r].
    now rewrite app_assoc.
Qed.

(** ** The change-tracking loop, for any codec *)

Section LoaderFacts.

Variable fs : filesystem.
Variable first_record : string -> result (option pyval).
Variable get_stop : string -> result pyval.

Abbreviation body := (load_file fs first_record get_stop).

(** The two loops are one loop over the matched files. *)
Lemma for_each_file_matched paths led :
  for_each_file fs body paths led = for_each body (matched fs paths) led.
Proof.
  unfold for_each_file, matched. revert led.
  induction paths as [|p paths IH]; intros led; [reflexivity|].
  simpl. rewrite for_each_app. unfold mbind, M_bind.
  destruct (for_each body (glob fs p) led) as [[led1 tr1] [[]|e]];
    [|reflexivity].
  now rewrite IH.
Qed.

(** A file whose timestamp is the remembered one is skipped. *)
Lemma load_file_known f led :
  led !! f = Some (getmtime fs f) ->
  body f led = (led, [], Ok tt).
Proof.
  intros H. unfold load_file, ledger_get, mbind, M_bind.
  rewrite H. simpl. now rewrite Z.eqb_refl.
Qed.

Lemma mtime_eq_false m (known : option Z) :
  known <> Some m -> mtime_eq m known = false.
Proof.
  destruct known as [k|]; simpl; [|reflexivity].
  intros H. apply Z.eqb_neq. congruence.
Qed.

(** A file whose timestamp is not the remembered one: the ledger is
    written, the file is opened, and what follows depends on its first
    record and on its stop document. *)
Lemma load_file_changed f led :
  led !! f <> Some (getmtime fs f) ->
  body f led =
    (<[f := getmtime fs f]> led,
     Marked f (getmtime fs f) :: Opened f ::
       match first_record f, get_stop f with
       | Ok (Some start_doc), Ok stop_doc => [Upserted start_doc stop_doc f]
       | _, _ => []
       end,
     match first_record f, get_stop f with
     | Raise e, _ => Raise e
     | Ok None, _ => Ok tt
     | Ok (Some _), Raise e => Raise e
     | Ok (Some _), Ok _ => Ok tt
     end).
Proof.
  intros H. unfold load_file, ledger_get, ledger_set, emit, lift,
    mbind, M_bind, mret, M_ret.
  rewrite (mtime_eq_false _ _ H). simpl.
  destruct (first_record f) as [[start_doc|]|e]; try reflexivity.
  destruct (get_stop f) as [stop_doc|e]; reflexivity.
Qed.

(** The ledger entry of [g] after the loop body has run on [f]. *)
Lemma load_file_ledger f g led led' tr r :
  body f led = (led', tr, r) ->
  led' !! g = if decide (f = g)
              then Some (getmtime fs f)
              else led !! g.
Proof.
  intros H. destruct (decide (led !! f = Some (getmtime fs f))) as [Hk|Hk].
  - rewrite (load_file_known _ _ Hk) in H. injection H as <- _ _.
    case_decide; congruence.
  - rewrite (load_file_changed _ _ Hk) in H. injection H as <- _ _.
    now rewrite lookup_insert.
Qed.

(** An entry that holds the current timestamp of its file is not changed
    by a cycle. *)
Lemma for_each_keeps l g led led' tr r :
  for_each body l led = (led', tr, r) ->
  led !! g = Some (getmtime fs g) ->
  led' !! g = Some (getmtime fs g).
Proof.
  revert led led' tr r. induction l as [|f l IH]; intros led led' tr r H Hg.
  - injection H as <- _ _. exact Hg.
  - rewrite for_each_cons in H. unfold mbind, M_bind in H.
    destruct (body f led) as [[led1 tr1] r1] eqn:Hf.
    pose proof (load_file_ledger _ g _ _ _ _ Hf) as Hg1.
    assert (led1 !! g = Some (getmtime fs g)) as Hg1'.
    { rewrite Hg1. case_decide; congruence. }
    destruct r1 as [[]|e].
    + destruct (for_each body l led1) as [[led2 tr2] r2] eqn:Hl.
      injection H as <- _ _. eapply IH; eauto.
    + injection H as <- _ _. exact Hg1'.
Qed.

(** When every file holds its remembered timestamp, the loop does
    nothing. *)
Lemma for_each_known l led :
  (forall f, f ∈ l -> led !! f = Some (getmtime fs f)) ->
  for_each body l led = (led, [], Ok tt).
Proof.
  induction l as [|f l IH]; intros H; [reflexivity|].
  rewrite for_each_cons. unfold mbind, M_bind.
  rewrite load_file_known by (apply H; left).
  rewrite IH by (intros g Hg; apply H; now right).
  reflexivity.
Qed.

(** After a cycle that returns, every visited file holds its current
    timestamp. *)
Lemma for_each_marks l led led' tr :
  for_each body l led = (led', tr, Ok tt) ->
  forall f, f ∈ l -> led' !! f = Some (getmtime fs f).
Proof.
  revert led led' tr. induction l as [|g l IH]; intros led led' tr H f Hf.
  - inversion Hf.
  - rewrite for_each_cons in H. unfold mbind, M_bind in H.
    destruct (body g led) as [[led1 tr1] [[]|e]] eqn:Hg; [|discriminate].
    destruct (for_each body l led1) as [[led2 tr2] r2] eqn:Hl.
    injection H as <- _ ->.
    apply elem_of_cons in Hf as [->|Hf].
    + eapply for_each_keeps; [exact Hl|].
      rewrite (load_file_ledger _ g _ _ _ _ Hg). now case_decide.
    + eapply IH; eauto.
Qed.

(** The events of the loop body are about its file only. *)
Lemma load_file_events f led led' tr r :
  body f led = (led', tr, r) ->
  forall e, e ∈ tr -> event_file e = f /\ led !! f <> Some (getmtime fs f).
Proof.
  intros H e He. destruct (decide (led !! f = Some (getmtime fs f))) as [Hk|Hk].
  - rewrite (load_file_known _ _ Hk) in H. injection H as _ <- _. inversion He.
  - split; [|exact Hk].
    rewrite (load_file_changed _ _ Hk) in H. injection H as _ <- _.
    apply elem_of_cons in He as [->|He]; [reflexivity|].
    apply elem_of_cons in He as [->|He]; [reflexivity|].
    destruct (first_record f) as [[s|]|]; try (inversion He; fail).
    destruct (get_stop f); try (inversion He; fail).
    apply list_elem_of_singleton in He as ->. reflexivity.
Qed.

(** A file that holds its remembered timestamp is left alone by the whole
    cycle: no event is about it. *)
Lemma for_each_untouched l g led led' tr r :
  for_each body l led = (led', tr, r) ->
  led !! g = Some (getmtime fs g) ->
  forall e, e ∈ tr -> event_file e <> g.
Proof.
  revert led led' tr r. induction l as [|f l IH]; intros led led' tr r H Hg e He.
  - injection H as _ <- _. inversion He.
  - rewrite for_each_cons in H. unfold mbind, M_bind in H.
    destruct (body f led) as [[led1 tr1] r1] eqn:Hf.
    assert (forall e, e ∈ tr1 -> event_file e <> g) as H1.
    { intros e1 He1 Heq.
      destruct (load_file_events _ _ _ _ _ Hf e1 He1) as [Hef Hne].
      congruence. }
    assert (led1 !! g = Some (getmtime fs g)) as Hg1.
    { rewrite (load_file_ledger _ g _ _ _ _ Hf). case_decide; congruence. }
    destruct r1 as [[]|e1].
    + destruct (for_each body l led1) as [[led2 tr2] r2] eqn:Hl.
      injection H as _ <- _.
      apply elem_of_app in He as [He|He]; [now apply H1|].
      eapply IH; eauto.
    + injection H as _ <- _. now apply H1.
Qed.

(** A file about which the cycle has an event holds its current timestamp
    afterwards, however the cycle ends. *)
Lemma for_each_event_marked l led led' tr r :
  for_each body l led = (led', tr, r) ->
  forall e, e ∈ tr -> led' !! event_file e = Some (getmtime fs (event_file e)).
Proof.
  revert led led' tr r. induction l as [|f l IH]; intros led led' tr r H e He.
  - injection H as _ <- _. inversion He.
  - rewrite for_each_cons in H. unfold mbind, M_bind in H.
    destruct (body f led) as [[led1 tr1] r1] eqn:Hf.
    assert (forall e, e ∈ tr1 ->
              led1 !! event_file e = Some (getmtime fs (event_file e))) as H1.
    { intros e1 He1.
      destruct (load_file_events _ _ _ _ _ Hf e1 He1) as [-> _].
      rewrite (load_file_ledger _ f _ _ _ _ Hf). now case_decide. }
    destruct r1 as [[]|e1].
    + destruct (for_each body l led1) as [[led2 tr2] r2] eqn:Hl.
      injection H as <- <- _.
      apply elem_of_app in He as [He|He].
      * eapply for_each_keeps; [exact Hl|]. now apply H1.
      * eapply IH; eauto.
    + injection H as <- <- _. now apply H1.
Qed.

(** When the loop body raises, it has written the ledger and opened the
    file, and nothing more. *)
Lemma load_file_raise f led led' tr e :
  body f led = (led', tr, Raise e) ->
  tr = [Marked f (getmtime fs f); Opened f].
Proof.
  intros H. destruct (decide (led !! f = Some (getmtime fs f))) as [Hk|Hk].
  - rewrite (load_file_known _ _ Hk) in H. discriminate.
  - rewrite (load_file_changed _ _ Hk) in H.
    destruct (first_record f) as [[s|]|]; [|discriminate|].
    + destruct (get_stop f); [discriminate|]. now injection H as _ <- _.
    + now injection H as _ <- _.
Qed.

(** A cycle that raises ends with the ledger write and the opening of one
    of its files. *)
Lemma for_each_raise l led led' tr e :
  for_each body l led = (led', tr, Raise e) ->
  exists f tr0, f ∈ l /\ tr = tr0 ++ [Marked f (getmtime fs f); Opened f].
Proof.
  revert led led' tr. induction l as [|g l IH]; intros led led' tr H.
  - discriminate.
  - rewrite for_each_cons in H. unfold mbind, M_bind in H.
    destruct (body g led) as [[led1 tr1] [[]|e1]] eqn:Hg.
    + destruct (for_each body l led1) as [[led2 tr2] r2] eqn:Hl.
      injection H as _ <- ->.
      destruct (IH _ _ _ Hl) as (f & tr0 & Hf & ->).
      exists f, (tr1 ++ tr0). split; [now right|now rewrite app_assoc].
    + injection H as _ <- _. exists g, []. split; [left|].
      now rewrite (load_file_raise _ _ _ _ _ Hg).
Qed.

End LoaderFacts.

(** ** Text files *)

Lemma readline_splitlines s :
  splitlines s =
    match s with
    | EmptyString => []
    | _ => fst (readline s) :: splitlines (snd (readline s))
    end.
Proof.
  induction s as [|c s IH]; [reflexivity|].
  simpl. destruct (Ascii.eqb c LF); [reflexivity|].
  rewrite IH. destruct s as [|c' s]; [reflexivity|].
  destruct (readline (String c' s)) as [l r]. reflexivity.
Qed.

Lemma readline_empty s : fst (readline s) = "" -> s = "".
Proof.
  destruct s as [|c s]; [reflexivity|]. simpl.
  destruct (Ascii.eqb c LF); [discriminate|].
  destruct (readline s). discriminate.
Qed.

(** What the two calls of [readline] in [_load] give, from the lines of
    the file. *)
Lemma readline_first s :
  fst (readline s) = hd "" (splitlines s).
Proof.
  rewrite readline_splitlines. destruct s; reflexivity.
Qed.

Lemma readline_second s :
  fst (readline (snd (readline s))) = hd "" (tl (splitlines s)).
Proof.
  rewrite (readline_splitlines s). destruct s as [|c s]; [reflexivity|].
  cbn [tl]. apply readline_first.
Qed.

Lemma splitlines_nonempty s l : l ∈ splitlines s -> l <> "".
Proof.
  revert l. induction s as [|c s IH]; intros l Hl; [inversion Hl|].
  simpl in Hl. destruct (Ascii.eqb c LF).
  - apply elem_of_cons in Hl as [->|Hl]; [discriminate|now apply IH].
  - destruct (splitlines s) as [|l0 ls].
    + apply list_elem_of_singleton in Hl as ->. discriminate.
    + apply elem_of_cons in Hl as [->|Hl]; [discriminate|].
      apply IH. now right.
Qed.

(** ** Examples *)

(** The last line with content, not the blank line after it. *)
Example tail_skips_trailing_blank_line :
  tail (String.concat (String LF "") ["line1"; "line2"; ""; ""]) = Some "line2".
Proof. reflexivity. Qed.

Example tail_of_empty_file : tail "" = None.
Proof. reflexivity. Qed.

Example readline_twice :
  readline (String.concat (String LF "") ["ab"; "cd"])
  = (String.append "ab" (String LF ""), "cd")
  /\ readline "cd" = ("cd", "") /\ readline "" = ("", "").
Proof. repeat split. Qed.

(** A file with a start record and no stop record yet. *)
Example jsonl_start_only :
  Jsonl.get_stop sample_loads (String.append start_line (String LF "")) = Ok PyNone
  /\ Jsonl.gen sample_loads (String.append start_line (String LF ""))
     = ([(PyStr "start", PyDict [("uid", PyStr "abc")])], None).
Proof. split; reflexivity. Qed.

(** A file that ends with its stop record. *)
Example jsonl_start_stop :
  Jsonl.get_stop sample_loads
    (String.concat (String LF "") [start_line; stop_line; ""])
  = Ok (PyDict []).
Proof. reflexivity. Qed.

(** An empty file is skipped; once the start record is written and the
    timestamp has changed, the next cycle upserts the run with no stop
    document. *)
Example empty_then_start :
  Jsonl._load sample_loads (sample_fs 5 "" Exhausted) [Str "runs/*"] ∅
  = ({[ "runs/a" := 5 ]}, [Marked "runs/a" 5; Opened "runs/a"], Ok tt)
  /\ Jsonl._load sample_loads
       (sample_fs 6 (String.append start_line (String LF "")) Exhausted)
       [Str "runs/*"] {[ "runs/a" := 5 ]}
     = (<["runs/a" := 6]> {[ "runs/a" := 5 ]},
        [Marked "runs/a" 6; Opened "runs/a";
         Upserted (PyDict [("uid", PyStr "abc")]) PyNone "runs/a"],
        Ok tt).
Proof. split; reflexivity. Qed.

(** A file whose only line is being written. *)
Example msgpack_and_jsonl_partial_line :
  Jsonl.first_record sample_loads "[" = Ok None
  /\ Msgpack.first_record Exhausted = Ok None
  /\ Msgpack.first_record Malformed = Raise UnpackException.
Proof. repeat split. Qed.

(** ** The stop document *)

(** The line that [tail] gives has content. *)
Lemma tail_has_content text lastline :
  tail text = Some lastline -> lastline <> "".
Proof.
  unfold tail. intros H. apply last_Some_elem_of in H.
  apply list_elem_of_filter in H as [H _]. intros ->. exact H.
Qed.

(** Any error of the assignment [name, doc = ...] on the last line reaches
    the caller of [get_stop], whatever the decoder. *)
Lemma jsonl_get_stop_unpack_error json_loads text lastline v e :
  tail text = Some lastline ->
  json_loads lastline = Some v ->
  unpack2 v = Raise e ->
  Jsonl.get_stop json_loads text = Raise e.
Proof.
  intros Ht Hd Hu. unfold Jsonl.get_stop. rewrite Ht, Hd, Hu.
  pose proof (tail_has_content _ _ Ht).
  now destruct (String.eqb_spec lastline "").
Qed.

(** C7, as amended. When the last line with content of a text file is not
    decodable by [json.loads] (it raises [JSONDecodeError]), [get_stop]
    returns [None] and raises nothing. When [json.loads] decodes the line
    but the value does not unpack into a name and a document, the error of
    the unpacking reaches the caller. *)
Theorem jsonl_get_stop_swallows_decode_error
    (json_loads : string -> option pyval) (text lastline : string) :
  tail text = Some lastline ->
  (json_loads lastline = None ->
   Jsonl.get_stop json_loads text = Ok PyNone)
  /\ (forall v e,
        json_loads lastline = Some v ->
        unpack2 v = Raise e ->
        Jsonl.get_stop json_loads text = Raise e).
Proof.
  intros Ht. split.
  - intros Hd. unfold Jsonl.get_stop. rewrite Ht, Hd.
    now destruct (String.eqb lastline "").
  - intros v e Hd Hu. eapply jsonl_get_stop_unpack_error; eauto.
Qed.

Lemma jsonl_get_stop_swallows_decode_error_witness :
  tail "{" = Some "{" /\ sample_loads "{" = None
  /\ Jsonl.get_stop sample_loads "{" = Ok PyNone.
Proof.
  split; [reflexivity|]. split; [reflexivity|].
  refine (proj1 (jsonl_get_stop_swallows_decode_error sample_loads "{" "{" _) _);
    reflexivity.
Defined.

(** C7 as stated fails: a last line that [json.loads] decodes, but not to a
    pair, does not decode as a (name, document) pair, and the error of the
    assignment [name, doc = ...] reaches the caller of [get_stop]. *)
Lemma jsonl_get_stop_raises_on_non_pair :
  tail three_numbers_text = Some "[1, 2, 3]"
  /\ sample_loads "[1, 2, 3]" = Some (PyList [PyInt 1; PyInt 2; PyInt 3])
  /\ unpack2 (PyList [PyInt 1; PyInt 2; PyInt 3]) = Raise ValueError
  /\ Jsonl.get_stop sample_loads three_numbers_text = Raise ValueError
  /\ Jsonl.get_stop sample_loads three_numbers_text <> Ok PyNone.
Proof. repeat split; try reflexivity. discriminate. Qed.

(** On a well-formed binary file, [get_stop] returns the document of the
    first record named 'stop', and [None] when there is none. *)
Lemma msgpack_get_stop_first_stop recs :
  Msgpack.get_stop (stream_of recs) = Ok (first_stop recs).
Proof.
  unfold first_stop. induction recs as [|[name doc] recs IH]; [reflexivity|].
  simpl. unfold is_stop at 1. simpl.
  destruct (py_eq_str name "stop"); [reflexivity|exact IH].
Qed.

(** C3, as amended. For a binary file in which no record before the final
    one is named 'stop', [get_stop] returns the document of the final
    record when that record is named 'stop', and [None] otherwise. For any
    binary file, it returns the document of the first record named 'stop',
    and [None] when no record has that name. *)
Theorem msgpack_get_stop_final_record
    (init : list (pyval * pyval)) (name doc : pyval) :
  ((forall r, r ∈ init -> is_stop r = false) ->
   Msgpack.get_stop (stream_of (init ++ [(name, doc)]))
   = Ok (if py_eq_str name "stop" then doc else PyNone))
  /\ Msgpack.get_stop (stream_of (init ++ [(name, doc)]))
     = Ok (first_stop (init ++ [(name, doc)]))
  /\ Msgpack.get_stop (stream_of []) = Ok PyNone.
Proof.
  split; [|split; [apply msgpack_get_stop_first_stop|reflexivity]].
  intros H. rewrite msgpack_get_stop_first_stop. f_equal.
  unfold first_stop. induction init as [|r init IH].
  - simpl. unfold is_stop. simpl. now destruct (py_eq_str name "stop").
  - simpl. rewrite (H r) by left. apply IH.
    intros r' Hr'. apply H. now right.
Qed.

Lemma msgpack_get_stop_final_record_witness :
  Msgpack.get_stop
    (stream_of ([(PyStr "start", PyDict [("uid", PyStr "abc")])]
                ++ [(PyStr "stop", PyDict [("exit_status", PyStr "success")])]))
  = Ok (PyDict [("exit_status", PyStr "success")]).
Proof.
  apply (proj1 (msgpack_get_stop_final_record
                  [(PyStr "start", PyDict [("uid", PyStr "abc")])]
                  (PyStr "stop") (PyDict [("exit_status", PyStr "success")]))).
  intros r Hr. apply list_elem_of_singleton in Hr as ->. reflexivity.
Defined.

(** C3 as stated fails: the final record of this file is not named 'stop',
    yet [get_stop] returns the document of the 'stop' record before it, not
    [None]. *)
Lemma msgpack_get_stop_returns_earlier_stop :
  last stop_then_event = Some (PyStr "event", PyDict [])
  /\ Msgpack.get_stop (stream_of stop_then_event)
     = Ok (PyDict [("exit_status", PyStr "success")])
  /\ Msgpack.get_stop (stream_of stop_then_event) <> Ok PyNone.
Proof. repeat split; try reflexivity. discriminate. Qed.

(** ** The first record *)

Section FirstRecord.

Variable json_loads : string -> option pyval.

(** A first line that does not decode, in a file of at least two lines:
    the decode error is raised again. *)
Lemma jsonl_first_record_malformed text line1 line2 more :
  splitlines text = line1 :: line2 :: more ->
  json_loads line1 = None ->
  Jsonl.first_record json_loads text = Raise JSONDecodeError.
Proof.
  intros Hl Hd. unfold Jsonl.first_record.
  pose proof (readline_first text) as H1.
  pose proof (readline_second text) as H2.
  destruct (readline text) as [l1 rest]. simpl in H1, H2.
  destruct (readline rest) as [l2 rest']. simpl in H2.
  rewrite Hl in H1, H2. simpl in H1, H2. subst l1 l2. rewrite Hd.
  assert (line2 <> "") as Hne.
  { apply (splitlines_nonempty text). rewrite Hl. right. left. }
  destruct (String.eqb_spec line2 ""); [contradiction|reflexivity].
Qed.

(** A first line that does not decode, in a file of at most one line:
    the source does [continue]. *)
Lemma jsonl_first_record_not_ready text :
  json_loads (hd "" (splitlines text)) = None ->
  (length (splitlines text) <= 1)%nat ->
  Jsonl.first_record json_loads text = Ok None.
Proof.
  intros Hd Hlen. unfold Jsonl.first_record.
  pose proof (readline_first text) as H1.
  pose proof (readline_second text) as H2.
  destruct (readline text) as [l1 rest]. simpl in H1, H2.
  destruct (readline rest) as [l2 rest']. simpl in H2.
  subst l1. rewrite Hd.
  destruct (splitlines text) as [|a [|b ls]]; simpl in *; subst l2;
    [reflexivity|reflexivity|lia].
Qed.

(** The first record of a file that is not ready, for either class. *)
Lemma class_load_file_not_ready k fs f led :
  not_ready json_loads k fs f ->
  led !! f <> Some (getmtime fs f) ->
  Catalog.class_load_file json_loads k fs f led
  = (<[f := getmtime fs f]> led, [Marked f (getmtime fs f); Opened f], Ok tt).
Proof.
  intros Hn Hk. destruct k; simpl in *.
  - destruct Hn as [Hd Hlen]. unfold Jsonl.load_file.
    rewrite load_file_changed by exact Hk.
    now rewrite (jsonl_first_record_not_ready _ Hd Hlen).
  - unfold Msgpack.load_file. rewrite load_file_changed by exact Hk.
    now rewrite Hn.
Qed.

(** A cycle of either class is the loop of its body over the matched
    files. *)
Lemma class_load_matched k fs paths led :
  Catalog.class_load json_loads k fs paths led
  = for_each (Catalog.class_load_file json_loads k fs) (matched fs paths) led.
Proof.
  destruct k; simpl; unfold Jsonl._load, Msgpack._load;
    apply for_each_file_matched.
Qed.

(** A file that holds its remembered timestamp is left alone by a cycle of
    either class. *)
Lemma class_load_untouched k fs paths f led led' tr r :
  Catalog.class_load json_loads k fs paths led = (led', tr, r) ->
  led !! f = Some (getmtime fs f) ->
  forall e, e ∈ tr -> event_file e <> f.
Proof.
  rewrite class_load_matched. destruct k; simpl;
    unfold Jsonl.load_file, Msgpack.load_file; apply for_each_untouched.
Qed.

End FirstRecord.

(** ** Refresh cycles *)

(** C5. A text file whose first line does not decode and that has a second
    line: the cycle raises the decode error when it reaches the file, and
    ends there. Its events are those of the files before, then the ledger
    write and the opening of this file: there is no upsert for this file or
    for any file after it. *)
Theorem jsonl_malformed_start_aborts_cycle
    (json_loads : string -> option pyval) (fs : filesystem)
    (paths : list pathlike) (led led1 : gmap string Z) (tr1 : list event)
    (pre post : list string) (f line1 line2 : string) (more : list string) :
  matched fs paths = pre ++ f :: post ->
  for_each (Jsonl.load_file json_loads fs) pre led = (led1, tr1, Ok tt) ->
  led1 !! f <> Some (getmtime fs f) ->
  splitlines (read_text fs f) = line1 :: line2 :: more ->
  json_loads line1 = None ->
  Jsonl._load json_loads fs paths led
  = (<[f := getmtime fs f]> led1,
     tr1 ++ [Marked f (getmtime fs f); Opened f],
     Raise JSONDecodeError).
Proof.
  intros Hm Hpre Hk Hl Hd. unfold Jsonl._load, Jsonl.load_file in *.
  rewrite for_each_file_matched, Hm, for_each_app.
  rewrite (bind_ok _ _ _ _ _ _ Hpre). rewrite for_each_cons.
  assert (load_file fs
            (fun filename => Jsonl.first_record json_loads (read_text fs filename))
            (fun filename => Jsonl.get_stop json_loads (read_text fs filename))
            f led1
          = (<[f := getmtime fs f]> led1,
             [Marked f (getmtime fs f); Opened f], Raise JSONDecodeError)) as Hf.
  { rewrite load_file_changed by exact Hk.
    now rewrite (jsonl_first_record_malformed _ _ _ _ _ Hl Hd). }
  now rewrite (bind_raise _ _ _ _ _ _ Hf).
Qed.

Lemma jsonl_malformed_start_aborts_cycle_witness :
  Jsonl._load sample_loads
    (sample_fs 5 (String.append "oops" (String LF start_line)) Exhausted)
    [Str "runs/*"] ∅
  = (<["runs/a" := 5]> ∅, [] ++ [Marked "runs/a" 5; Opened "runs/a"],
     Raise JSONDecodeError).
Proof.
  apply (jsonl_malformed_start_aborts_cycle sample_loads
           (sample_fs 5 (String.append "oops" (String LF start_line)) Exhausted)
           [Str "runs/*"] ∅ ∅ [] [] [] "runs/a"
           (String.append "oops" (String LF "")) start_line []);
    try reflexivity.
  vm_compute. discriminate.
Defined.

(** C2, as amended. A file that is not ready, and whose timestamp is not
    the remembered one, is skipped without a raise and without an upsert,
    and the cycle goes on with the files after it; but its new timestamp is
    written to the ledger. So a later cycle leaves the file alone as long
    as its timestamp stays the same, and opens it again once the timestamp
    has changed. *)
Theorem not_ready_file_skipped_and_marked
    (json_loads : string -> option pyval) (k : catalog_class)
    (fs : filesystem) (f : string) (led : gmap string Z) :
  not_ready json_loads k fs f ->
  led !! f <> Some (getmtime fs f) ->
  Catalog.class_load_file json_loads k fs f led
  = (<[f := getmtime fs f]> led, [Marked f (getmtime fs f); Opened f], Ok tt)
  /\ (forall post,
        for_each (Catalog.class_load_file json_loads k fs) (f :: post) led
        = let '(led2, tr2, r2) :=
            for_each (Catalog.class_load_file json_loads k fs) post
              (<[f := getmtime fs f]> led) in
          (led2, [Marked f (getmtime fs f); Opened f] ++ tr2, r2))
  /\ (forall fs' paths led1 led2 tr2 r2,
        led1 !! f = Some (getmtime fs f) ->
        getmtime fs' f = getmtime fs f ->
        Catalog.class_load json_loads k fs' paths led1 = (led2, tr2, r2) ->
        forall e, e ∈ tr2 -> event_file e <> f)
  /\ (forall fs' led1,
        led1 !! f = Some (getmtime fs f) ->
        getmtime fs' f <> getmtime fs f ->
        exists tr r,
          Catalog.class_load_file json_loads k fs' f led1
          = (<[f := getmtime fs' f]> led1,
             Marked f (getmtime fs' f) :: Opened f :: tr, r)).
Proof.
  intros Hn Hk. split; [|split; [|split]].
  - now apply class_load_file_not_ready.
  - intros post. rewrite for_each_cons.
    now rewrite (bind_ok _ _ _ _ _ _ (class_load_file_not_ready _ _ _ _ _ Hn Hk)).
  - intros fs' paths led1 led2 tr2 r2 H1 Hm Hc.
    eapply class_load_untouched; [exact Hc|]. now rewrite Hm.
  - intros fs' led1 H1 Hm.
    assert (led1 !! f <> Some (getmtime fs' f)) as Hk' by congruence.
    destruct k; simpl; unfold Jsonl.load_file, Msgpack.load_file;
      rewrite load_file_changed by exact Hk'; eauto.
Qed.

Lemma not_ready_file_skipped_and_marked_witness :
  Catalog.class_load_file sample_loads BlueskyJSONLCatalog
    (sample_fs 5 "" Exhausted) "runs/a" ∅
  = (<["runs/a" := 5]> ∅, [Marked "runs/a" 5; Opened "runs/a"], Ok tt).
Proof.
  apply (not_ready_file_skipped_and_marked sample_loads BlueskyJSONLCatalog
           (sample_fs 5 "" Exhausted) "runs/a" ∅).
  - split; [reflexivity|simpl; lia].
  - vm_compute. discriminate.
Defined.

(** C2 as stated fails, for both classes: an empty file is skipped, but the
    ledger, which had no entry for it, now holds its timestamp, and a second
    cycle over the same filesystem does not open the file again. *)
Lemma not_ready_file_advances_ledger :
  not_ready sample_loads BlueskyJSONLCatalog empty_file_fs "runs/a"
  /\ not_ready sample_loads BlueskyMsgpackCatalog empty_file_fs "runs/a"
  /\ (∅ : gmap string Z) !! "runs/a" = None
  /\ Jsonl._load sample_loads empty_file_fs [Str "runs/*"] ∅
     = (<["runs/a" := 5]> ∅, [Marked "runs/a" 5; Opened "runs/a"], Ok tt)
  /\ Msgpack._load empty_file_fs [Str "runs/*"] ∅
     = (<["runs/a" := 5]> ∅, [Marked "runs/a" 5; Opened "runs/a"], Ok tt)
  /\ (<["runs/a" := 5]> ∅ : gmap string Z) !! "runs/a" = Some 5
  /\ Jsonl._load sample_loads empty_file_fs [Str "runs/*"] (<["runs/a" := 5]> ∅)
     = (<["runs/a" := 5]> ∅, [], Ok tt)
  /\ Msgpack._load empty_file_fs [Str "runs/*"] (<["runs/a" := 5]> ∅)
     = (<["runs/a" := 5]> ∅, [], Ok tt).
Proof.
  split; [split; [reflexivity|simpl; lia]|].
  repeat split; vm_compute; reflexivity.
Qed.

Lemma set_filename_to_mtime_same c :
  set_filename_to_mtime c (_filename_to_mtime c) = c.
Proof. now destruct c. Qed.

(** A cycle of the instance [self], from the cycle of its class. *)
Lemma catalog_load_unfold json_loads fs (st : gmap nat catalog) self c :
  st !! self = Some c ->
  Catalog._load json_loads fs st self =
    let '(led, tr, r) :=
      for_each (Catalog.class_load_file json_loads (cls c) fs)
        (matched fs (paths c)) (_filename_to_mtime c) in
    Some (<[self := set_filename_to_mtime c led]> st, tr, r).
Proof.
  intros H. unfold Catalog._load. rewrite H. simpl.
  now rewrite class_load_matched.
Qed.

Lemma class_load_file_is_body json_loads k fs :
  exists first_record get_stop,
    Catalog.class_load_file json_loads k fs = load_file fs first_record get_stop.
Proof. destruct k; simpl; eauto. Qed.

(** C4. When every matched file holds in the ledger its current timestamp,
    a refresh cycle opens no file and calls no upsert: it has no event at
    all, it returns, and the instance is as it was. *)
Theorem unchanged_files_no_parse_no_upsert
    (json_loads : string -> option pyval) (fs : filesystem)
    (st : gmap nat catalog) (self : nat) (c : catalog) :
  st !! self = Some c ->
  (forall f, f ∈ matched fs (paths c) ->
             _filename_to_mtime c !! f = Some (getmtime fs f)) ->
  Catalog._load json_loads fs st self = Some (st, [], Ok tt).
Proof.
  intros Hc Hk. rewrite (catalog_load_unfold _ _ _ _ _ Hc).
  destruct (class_load_file_is_body json_loads (cls c) fs) as (fr & gs & ->).
  rewrite for_each_known by exact Hk.
  rewrite set_filename_to_mtime_same. now rewrite insert_id.
Qed.

(** X13. After a cycle that returned, a second cycle over a filesystem
    with the same matched files and the same timestamps does nothing,
    whatever the files now hold. *)
Lemma second_cycle_is_idle json_loads fs fs' (st st1 : gmap nat catalog)
    self c tr1 :
  st !! self = Some c ->
  Catalog._load json_loads fs st self = Some (st1, tr1, Ok tt) ->
  matched fs' (paths c) = matched fs (paths c) ->
  (forall f, f ∈ matched fs (paths c) -> getmtime fs' f = getmtime fs f) ->
  Catalog._load json_loads fs' st1 self = Some (st1, [], Ok tt).
Proof.
  intros Hc H1 Hm Ht. rewrite (catalog_load_unfold _ _ _ _ _ Hc) in H1.
  destruct (class_load_file_is_body json_loads (cls c) fs) as (fr & gs & Hb).
  destruct (class_load_file_is_body json_loads (cls c) fs') as (fr' & gs' & Hb').
  rewrite Hb in H1.
  destruct (for_each _ _ _) as [[led1 tr] r] eqn:Hrun in H1.
  injection H1 as <- <- ->.
  assert (<[self := set_filename_to_mtime c led1]> st !! self
          = Some (set_filename_to_mtime c led1)) as Hc1
    by apply lookup_insert_eq.
  rewrite (catalog_load_unfold _ _ _ _ _ Hc1). simpl. rewrite Hb', Hm.
  rewrite for_each_known.
  - f_equal. f_equal. f_equal. now rewrite insert_insert_eq.
  - intros f Hf. rewrite Ht by exact Hf.
    eapply for_each_marks; eauto.
Qed.

Lemma unchanged_files_no_parse_no_upsert_witness :
  Catalog._load sample_loads (sample_fs 5 start_line Exhausted)
    {[ 0%nat := jsonl_catalog {[ "runs/a" := 5 ]} ]} 0%nat
  = Some ({[ 0%nat := jsonl_catalog {[ "runs/a" := 5 ]} ]}, [], Ok tt).
Proof.
  apply (unchanged_files_no_parse_no_upsert sample_loads
           (sample_fs 5 start_line Exhausted) _ 0%nat
           (jsonl_catalog {[ "runs/a" := 5 ]})).
  - reflexivity.
  - intros f Hf. simpl in Hf. apply list_elem_of_singleton in Hf as ->.
    reflexivity.
Defined.

(** C6. A file whose timestamp is not the remembered one has the new
    timestamp written to the ledger before it is opened. So when a cycle
    raises, it does so on a matched file that was marked and then opened;
    the ledger of the instance holds that file's new timestamp after the
    raise, and a later cycle has no event about the file (it is not opened
    again) as long as its timestamp is the same. *)
Theorem ledger_written_before_parse
    (json_loads : string -> option pyval) (fs : filesystem)
    (st : gmap nat catalog) (self : nat) (c : catalog) :
  st !! self = Some c ->
  (forall f led,
      led !! f <> Some (getmtime fs f) ->
      exists tr r,
        Catalog.class_load_file json_loads (cls c) fs f led
        = (<[f := getmtime fs f]> led,
           Marked f (getmtime fs f) :: Opened f :: tr, r))
  /\ (forall st1 tr1 e,
        Catalog._load json_loads fs st self = Some (st1, tr1, Raise e) ->
        exists f tr0 c1,
          f ∈ matched fs (paths c)
          /\ tr1 = tr0 ++ [Marked f (getmtime fs f); Opened f]
          /\ st1 !! self = Some c1
          /\ _filename_to_mtime c1 !! f = Some (getmtime fs f)
          /\ forall fs' st2 tr2 r2,
               getmtime fs' f = getmtime fs f ->
               Catalog._load json_loads fs' st1 self = Some (st2, tr2, r2) ->
               forall ev, ev ∈ tr2 -> event_file ev <> f).
Proof.
  intros Hc.
  destruct (class_load_file_is_body json_loads (cls c) fs) as (fr & gs & Hb).
  split.
  - intros f led Hk. rewrite Hb, load_file_changed by exact Hk. eauto.
  - intros st1 tr1 e H1. rewrite (catalog_load_unfold _ _ _ _ _ Hc), Hb in H1.
    destruct (for_each _ _ _) as [[led1 tr] r] eqn:Hrun in H1.
    injection H1 as <- <- ->.
    destruct (for_each_raise _ _ _ _ _ _ _ _ Hrun) as (f & tr0 & Hf & ->).
    exists f, tr0, (set_filename_to_mtime c led1).
    assert (led1 !! f = Some (getmtime fs f)) as Hled.
    { apply (for_each_event_marked _ _ _ _ _ _ _ _ Hrun (Opened f)).
      apply elem_of_app. right. right. left. }
    split; [exact Hf|]. split; [reflexivity|].
    split; [apply lookup_insert_eq|]. split; [exact Hled|].
    intros fs' st2 tr2 r2 Hm H2.
    rewrite (catalog_load_unfold _ _ _ _ (set_filename_to_mtime c led1)) in H2
      by apply lookup_insert_eq.
    simpl in H2.
    destruct (class_load_file_is_body json_loads (cls c) fs') as (fr' & gs' & Hb').
    rewrite Hb' in H2.
    destruct (for_each _ _ _) as [[led2 tr'] r'] eqn:Hrun2 in H2.
    injection H2 as _ <- _.
    eapply for_each_untouched; [exact Hrun2|]. now rewrite Hm.
Qed.

Lemma ledger_written_before_parse_witness :
  exists f tr0 c1,
    f ∈ matched malformed_fs (paths (jsonl_catalog ∅))
    /\ [Marked "runs/a" 5; Opened "runs/a"]
       = tr0 ++ [Marked f (getmtime malformed_fs f); Opened f]
    /\ ({[ 0%nat := jsonl_catalog {[ "runs/a" := 5 ]} ]} : gmap nat catalog)
         !! 0%nat = Some c1
    /\ _filename_to_mtime c1 !! f = Some (getmtime malformed_fs f)
    /\ forall fs' st2 tr2 r2,
         getmtime fs' f = getmtime malformed_fs f ->
         Catalog._load sample_loads fs'
           {[ 0%nat := jsonl_catalog {[ "runs/a" := 5 ]} ]} 0%nat
         = Some (st2, tr2, r2) ->
         forall ev, ev ∈ tr2 -> event_file ev <> f.
Proof.
  refine (proj2 (ledger_written_before_parse sample_loads malformed_fs
                   {[ 0%nat := jsonl_catalog ∅ ]} 0%nat (jsonl_catalog ∅) _)
            _ _ JSONDecodeError _).
  - reflexivity.
  - vm_compute. reflexivity.
Defined.

(** ** The facade *)

Lemma init_fresh store_query (st st' : gmap nat catalog) k ps q kw self :
  Catalog.__init__ store_query st k ps q kw = (st', self) ->
  st !! self = None
  /\ st' !! self
     = Some {| cls := k;
               paths := match ps with OnePath p => [p] | PathList l => l end;
               _filename_to_mtime := ∅;
               _query := store_query q; attrs := kw |}
  /\ forall i, i <> self -> st' !! i = st !! i.
Proof.
  unfold Catalog.__init__. intros H. injection H as <- <-.
  split; [apply not_elem_of_dom, is_fresh|].
  split; [apply lookup_insert_eq|].
  intros i Hi. now apply lookup_insert_ne.
Qed.

Lemma search_unfold store_query (st : gmap nat catalog) self c q :
  st !! self = Some c ->
  Catalog.search store_query st self q
  = Some (Catalog.__init__ store_query st (cls c) (PathList (paths c))
            (search_query (_query c) q) (derived_attrs (attrs c))).
Proof. intros H. unfold Catalog.search. now rewrite H. Qed.

(** A cycle of one instance leaves every other instance as it is. *)
Lemma catalog_load_frame json_loads fs (st st' : gmap nat catalog) self tr r i :
  Catalog._load json_loads fs st self = Some (st', tr, r) ->
  i <> self -> st' !! i = st !! i.
Proof.
  unfold Catalog._load. intros H Hi.
  destruct (st !! self) as [c|]; [|discriminate]. simpl in H.
  destruct (Catalog.class_load _ _ _ _ _) as [[led tr'] r'] in H.
  injection H as <- _ _. now apply lookup_insert_ne.
Qed.

(** C8. A catalog constructed on one path [p] is the catalog constructed
    on the list [[p]]: the stored paths are [[p]] in both, and so every
    refresh cycle and every search give the same on the two. *)
Theorem single_path_as_one_element_list
    (json_loads : string -> option pyval) (store_query : pyval -> pyval)
    (st : gmap nat catalog) (k : catalog_class) (p : pathlike)
    (query : pyval) (kw : base_attrs) :
  let one := Catalog.__init__ store_query st k (OnePath p) query kw in
  let many := Catalog.__init__ store_query st k (PathList [p]) query kw in
  one = many
  /\ paths <$> (fst one !! snd one) = Some [p]
  /\ paths <$> (fst many !! snd many) = Some [p]
  /\ (forall fs,
        Catalog._load json_loads fs (fst one) (snd one)
        = Catalog._load json_loads fs (fst many) (snd many))
  /\ (forall q,
        Catalog.search store_query (fst one) (snd one) q
        = Catalog.search store_query (fst many) (snd many) q).
Proof.
  simpl. split; [reflexivity|].
  split; [now rewrite lookup_insert_eq|].
  split; [now rewrite lookup_insert_eq|].
  split; reflexivity.
Qed.

(** C10. With no current filter ([None] or the empty mapping), [search]
    constructs the derived catalog with the query it was given; with a
    non-empty mapping as the current filter, it constructs it with the
    [$and] of the current filter and the query. *)
Theorem search_wraps_only_nonempty_filter
    (store_query : pyval -> pyval) (st : gmap nat catalog) (self : nat)
    (c : catalog) (q : pyval) :
  st !! self = Some c ->
  (_query c = PyNone \/ _query c = PyDict [] ->
     search_query (_query c) q = q
     /\ Catalog.search store_query st self q
        = Some (Catalog.__init__ store_query st (cls c) (PathList (paths c))
                  q (derived_attrs (attrs c))))
  /\ (forall kv d, _query c = PyDict (kv :: d) ->
        search_query (_query c) q = PyDict [("$and", PyList [_query c; q])]
        /\ Catalog.search store_query st self q
           = Some (Catalog.__init__ store_query st (cls c) (PathList (paths c))
                     (PyDict [("$and", PyList [_query c; q])])
                     (derived_attrs (attrs c)))).
Proof.
  intros Hc. unfold Catalog.search. rewrite Hc. simpl. split.
  - intros [H|H]; rewrite H; split; reflexivity.
  - intros kv d H. rewrite H. split; reflexivity.
Qed.

Lemma search_wraps_only_nonempty_filter_witness :
  search_query (_query (jsonl_catalog ∅)) query_a = query_a
  /\ Catalog.search or_empty {[ 0%nat := jsonl_catalog ∅ ]} 0%nat query_a
     = Some (Catalog.__init__ or_empty {[ 0%nat := jsonl_catalog ∅ ]}
               BlueskyJSONLCatalog (PathList [Str "runs/*"]) query_a
               (derived_attrs no_attrs)).
Proof.
  refine (proj1 (search_wraps_only_nonempty_filter or_empty
                   {[ 0%nat := jsonl_catalog ∅ ]} 0%nat (jsonl_catalog ∅)
                   query_a _) _).
  - reflexivity.
  - right. reflexivity.
Defined.

(** C9. [search] leaves the instance it is called on as it was (its paths,
    its filter, its ledger), and every other instance too. The derived
    catalog is a new instance of the same class with the same paths and an
    empty ledger of its own: a cycle of the derived catalog does not change
    the parent, and a cycle of the parent does not change the derived
    catalog. *)
Theorem search_frame
    (store_query : pyval -> pyval) (st : gmap nat catalog) (self : nat)
    (c : catalog) (q : pyval) :
  st !! self = Some c ->
  exists st' derived cd,
    Catalog.search store_query st self q = Some (st', derived)
    /\ st' !! self = Some c
    /\ (forall i, i <> derived -> st' !! i = st !! i)
    /\ derived <> self
    /\ st !! derived = None
    /\ st' !! derived = Some cd
    /\ cls cd = cls c
    /\ paths cd = paths c
    /\ _filename_to_mtime cd = ∅
    /\ (forall json_loads fs st2 tr r,
          Catalog._load json_loads fs st' derived = Some (st2, tr, r) ->
          st2 !! self = Some c)
    /\ (forall json_loads fs st2 tr r,
          Catalog._load json_loads fs st' self = Some (st2, tr, r) ->
          st2 !! derived = Some cd).
Proof.
  intros Hc. unfold Catalog.search. rewrite Hc. simpl.
  destruct (Catalog.__init__ store_query st (cls c) (PathList (paths c))
              (search_query (_query c) q) (derived_attrs (attrs c)))
    as [st' derived] eqn:Hi.
  destruct (init_fresh _ _ _ _ _ _ _ _ Hi) as (Hnew & Hd & Hother).
  assert (derived <> self) as Hne by (intros ->; congruence).
  assert (st' !! self = Some c) as Hself.
  { rewrite Hother by (intros ->; congruence). exact Hc. }
  eexists st', derived, _.
  split; [reflexivity|]. split; [exact Hself|]. split; [exact Hother|].
  split; [exact Hne|]. split; [exact Hnew|]. split; [exact Hd|].
  split; [reflexivity|]. split; [reflexivity|]. split; [reflexivity|].
  split.
  - intros json_loads fs st2 tr r H.
    rewrite (catalog_load_frame _ _ _ _ _ _ _ self H); [exact Hself|].
    intros ->. now apply Hne.
  - intros json_loads fs st2 tr r H.
    rewrite (catalog_load_frame _ _ _ _ _ _ _ derived H); [exact Hd|exact Hne].
Qed.

Lemma search_frame_witness :
  exists st' derived cd,
    Catalog.search or_empty {[ 0%nat := jsonl_catalog {[ "runs/a" := 5 ]} ]}
      0%nat query_a = Some (st', derived)
    /\ st' !! 0%nat = Some (jsonl_catalog {[ "runs/a" := 5 ]})
    /\ derived <> 0%nat
    /\ st' !! derived = Some cd
    /\ paths cd = [Str "runs/*"]
    /\ _filename_to_mtime cd = ∅.
Proof.
  destruct (search_frame or_empty
              {[ 0%nat := jsonl_catalog {[ "runs/a" := 5 ]} ]} 0%nat
              (jsonl_catalog {[ "runs/a" := 5 ]}) query_a)
    as (st' & derived & cd & H1 & H2 & _ & H3 & _ & H4 & _ & H5 & H6 & _).
  - reflexivity.
  - exists st', derived, cd. repeat split; assumption.
Defined.

(** The conditions of the two ways to combine the two queries are the
    same. *)
Lemma conjuncts_flat_nested :
  conjuncts flat_filter = conjuncts nested_filter.
Proof. reflexivity. Qed.

(** C1, as amended. Whatever the base class keeps as the stored filter, as
    long as it keeps a non-empty filter as it is given and keeps no filter
    as a value that counts as false: on a catalog constructed with no
    filter, [search({"a": 1})] and then [search({"b": 2})] give a catalog
    whose stored filter is [{"$and": [{"a": 1}, {"b": 2}]}]. Under every way
    to match where [$and] is the conjunction and the empty filter matches
    everything, this filter matches what the nested one would. *)
Theorem two_searches_filter
    (store_query : pyval -> pyval) (st : gmap nat catalog)
    (k : catalog_class) (ps : paths_arg) (kw : base_attrs) :
  (forall q, truthy q = true -> store_query q = q) ->
  truthy (store_query PyNone) = false ->
  filter_after_two_searches store_query st k ps kw query_a query_b
  = Some flat_filter
  /\ forall (D : Type) (sat : pyval -> D -> Prop),
       (forall qs doc, sat (and_ qs) doc <-> Forall (fun q => sat q doc) qs) ->
       (forall doc, sat (PyDict []) doc) ->
       forall doc, sat flat_filter doc <-> sat nested_filter doc.
Proof.
  intros Hkeep Hnone. split.
  - unfold filter_after_two_searches.
    destruct (Catalog.__init__ store_query st k ps PyNone kw)
      as [st0 c0] eqn:H0.
    destruct (init_fresh _ _ _ _ _ _ _ _ H0) as (_ & Hc0 & _).
    rewrite (search_unfold _ _ _ _ _ Hc0).
    cbn [mbind option_bind _query cls paths attrs].
    unfold search_query at 1. rewrite Hnone.
    destruct (Catalog.__init__ store_query st0 _ _ query_a _)
      as [st1 c1] eqn:H1.
    destruct (init_fresh _ _ _ _ _ _ _ _ H1) as (_ & Hc1 & _).
    rewrite (search_unfold _ _ _ _ _ Hc1).
    cbn [mbind option_bind _query cls paths attrs].
    rewrite (Hkeep query_a) by reflexivity.
    destruct (Catalog.__init__ store_query st1 _ _ _ _) as [st2 c2] eqn:H2.
    destruct (init_fresh _ _ _ _ _ _ _ _ H2) as (_ & Hc2 & _).
    rewrite Hc2. cbn [mbind option_bind _query].
    now rewrite Hkeep by reflexivity.
  - intros D sat Hand Hempty doc. unfold flat_filter, nested_filter.
    rewrite !Hand. rewrite !Forall_cons, !Forall_nil. rewrite Hand.
    rewrite !Forall_cons, !Forall_nil. specialize (Hempty doc). tauto.
Qed.

Lemma sample_sat_and qs (doc : list pyval) :
  sample_sat (and_ qs) doc <-> Forall (fun q => sample_sat q doc) qs.
Proof.
  unfold sample_sat. change (conjuncts (and_ qs)) with (flat_map conjuncts qs).
  induction qs as [|q qs IH]; simpl.
  - split; constructor.
  - rewrite Forall_app, Forall_cons, IH. reflexivity.
Qed.

Lemma two_searches_filter_witness :
  filter_after_two_searches or_empty ∅ BlueskyJSONLCatalog
    (OnePath (Str "runs/*")) no_attrs query_a query_b = Some flat_filter
  /\ forall doc : list pyval,
       sample_sat flat_filter doc <-> sample_sat nested_filter doc.
Proof.
  destruct (two_searches_filter or_empty ∅ BlueskyJSONLCatalog
              (OnePath (Str "runs/*")) no_attrs) as [H1 H2].
  - intros q Hq. unfold or_empty. now rewrite Hq.
  - reflexivity.
  - split; [exact H1|].
    apply (H2 (list pyval) sample_sat sample_sat_and).
    intros doc. constructor.
Defined.

(** C1 as stated fails: the first search, on a catalog with no filter, does
    not wrap its query, so the stored filter after the two searches is not
    the nested one. *)
Lemma two_searches_filter_not_nested :
  filter_after_two_searches or_empty ∅ BlueskyJSONLCatalog
    (OnePath (Str "runs/*")) no_attrs query_a query_b = Some flat_filter
  /\ filter_after_two_searches or_empty ∅ BlueskyMsgpackCatalog
       (OnePath (Str "runs/*")) no_attrs query_a query_b = Some flat_filter
  /\ flat_filter <> nested_filter.
Proof. repeat split; try (vm_compute; reflexivity). discriminate. Qed.

(** * Further properties *)

(** ** The change-tracking loop, for any codec *)

Section LoaderMore.

Variable fs : filesystem.
Variable first_record : string -> result (option pyval).
Variable get_stop : string -> result pyval.

Abbreviation body := (load_file fs first_record get_stop).

(** A ledger entry after the loop is the one before, or the current
    timestamp of a file of the loop. *)
Lemma for_each_ledger l led led' tr r f :
  for_each body l led = (led', tr, r) ->
  led' !! f = led !! f \/ (f ∈ l /\ led' !! f = Some (getmtime fs f)).
Proof.
  revert led led' tr r. induction l as [|g l IH]; intros led led' tr r H.
  - injection H as <- _ _. now left.
  - rewrite for_each_cons in H. unfold mbind, M_bind in H.
    destruct (body g led) as [[led1 tr1] r1] eqn:Hg.
    pose proof (load_file_ledger _ _ _ _ f _ _ _ _ Hg) as H1.
    assert (led1 !! f = led !! f \/ (f ∈ g :: l /\ led1 !! f = Some (getmtime fs f)))
      as H1'.
    { case_decide as Hgf; [subst g; right; split; [left|exact H1]|now left]. }
    destruct r1 as [[]|e].
    + destruct (for_each body l led1) as [[led2 tr2] r2] eqn:Hl.
      injection H as <- _ _.
      destruct (IH _ _ _ _ Hl) as [Hs|[Hin Hs]].
      * rewrite Hs. exact H1'.
      * right. split; [now right|exact Hs].
    + injection H as <- _ _. exact H1'.
Qed.

Lemma count_opened_none f tr :
  (forall e, e ∈ tr -> event_file e <> f) -> count_opened f tr = 0%nat.
Proof.
  unfold count_opened. induction tr as [|e tr IH]; intros H; [reflexivity|].
  simpl. destruct e as [g m|g|s d g]; simpl;
    try (apply IH; intros e' He'; apply H; now right).
  destruct (String.eqb_spec g f) as [->|_].
  - exfalso. apply (H (Opened f)); [left|reflexivity].
  - apply IH. intros e' He'. apply H. now right.
Qed.

Lemma count_upserted_none f tr :
  (forall e, e ∈ tr -> event_file e <> f) -> count_upserted f tr = 0%nat.
Proof.
  unfold count_upserted. induction tr as [|e tr IH]; intros H; [reflexivity|].
  simpl. destruct e as [g m|g|s d g]; simpl;
    try (apply IH; intros e' He'; apply H; now right).
  destruct (String.eqb_spec g f) as [->|_].
  - exfalso. apply (H (Upserted s d f)); [left|reflexivity].
  - apply IH. intros e' He'. apply H. now right.
Qed.

Lemma count_opened_app f tr1 tr2 :
  count_opened f (tr1 ++ tr2) = (count_opened f tr1 + count_opened f tr2)%nat.
Proof. unfold count_opened. now rewrite List.filter_app, length_app. Qed.

Lemma count_upserted_app f tr1 tr2 :
  count_upserted f (tr1 ++ tr2) = (count_upserted f tr1 + count_upserted f tr2)%nat.
Proof. unfold count_upserted. now rewrite List.filter_app, length_app. Qed.

(** The loop body opens its file at most once and upserts it at most
    once. *)
Lemma load_file_counts g f led led' tr r :
  body g led = (led', tr, r) ->
  (count_opened f tr <= 1)%nat /\ (count_upserted f tr <= 1)%nat.
Proof.
  intros H. destruct (decide (led !! g = Some (getmtime fs g))) as [Hk|Hk].
  - rewrite (load_file_known _ _ _ _ _ Hk) in H. injection H as _ <- _.
    split; apply Nat.le_0_l.
  - rewrite (load_file_changed _ _ _ _ _ Hk) in H. injection H as _ <- _.
    unfold count_opened, count_upserted. simpl.
    destruct (String.eqb g f);
      destruct (first_record g) as [[s|]|]; simpl; try lia;
      destruct (get_stop g); simpl; try lia;
      destruct (String.eqb g f); simpl; lia.
Qed.

(** A cycle opens each file at most once and upserts it at most once, also
    when the file comes up several times in the loop. *)
Lemma for_each_counts l f led led' tr r :
  for_each body l led = (led', tr, r) ->
  (count_opened f tr <= 1)%nat /\ (count_upserted f tr <= 1)%nat.
Proof.
  revert led led' tr r. induction l as [|g l IH]; intros led led' tr r H.
  - injection H as _ <- _. split; apply Nat.le_0_l.
  - rewrite for_each_cons in H. unfold mbind, M_bind in H.
    destruct (body g led) as [[led1 tr1] r1] eqn:Hg.
    pose proof (load_file_counts _ f _ _ _ _ Hg) as [Ho Hu].
    destruct r1 as [[]|e]; [|injection H as _ <- _; now split].
    destruct (for_each body l led1) as [[led2 tr2] r2] eqn:Hl.
    injection H as _ <- _.
    rewrite count_opened_app, count_upserted_app.
    destruct (decide (led1 !! f = Some (getmtime fs f))) as [Hf|Hf].
    + pose proof (for_each_untouched _ _ _ _ _ _ _ _ _ Hl Hf) as Hno.
      rewrite (count_opened_none _ _ Hno), (count_upserted_none _ _ Hno). lia.
    + assert (forall e, e ∈ tr1 -> event_file e <> f) as Hno.
      { intros e He Heq.
        destruct (load_file_events _ _ _ _ _ _ _ _ Hg e He) as [Hef _].
        apply Hf. rewrite (load_file_ledger _ _ _ _ f _ _ _ _ Hg).
        case_decide; congruence. }
      rewrite (count_opened_none _ _ Hno), (count_upserted_none _ _ Hno).
      destruct (IH _ _ _ _ Hl). lia.
Qed.

(** Every upsert of a cycle is for a file of the loop, with the document
    of its first record and the stop document that [get_stop] gives. *)
Lemma for_each_upserts_sound l led led' tr r s d f :
  for_each body l led = (led', tr, r) ->
  Upserted s d f ∈ tr ->
  f ∈ l /\ first_record f = Ok (Some s) /\ get_stop f = Ok d.
Proof.
  revert led led' tr r. induction l as [|g l IH]; intros led led' tr r H He.
  - injection H as _ <- _. inversion He.
  - rewrite for_each_cons in H. unfold mbind, M_bind in H.
    destruct (body g led) as [[led1 tr1] r1] eqn:Hg.
    assert (Upserted s d f ∈ tr1 ->
            f ∈ g :: l /\ first_record f = Ok (Some s) /\ get_stop f = Ok d) as H1.
    { intros He1.
      destruct (decide (led !! g = Some (getmtime fs g))) as [Hk|Hk].
      - rewrite (load_file_known _ _ _ _ _ Hk) in Hg.
        injection Hg as _ <- _. inversion He1.
      - rewrite (load_file_changed _ _ _ _ _ Hk) in Hg. injection Hg as _ <- _.
        apply elem_of_cons in He1 as [?|He1]; [discriminate|].
        apply elem_of_cons in He1 as [?|He1]; [discriminate|].
        destruct (first_record g) as [[s'|]|] eqn:Hfr; try (inversion He1; fail).
        destruct (get_stop g) as [d'|] eqn:Hgs; try (inversion He1; fail).
        apply list_elem_of_singleton in He1. injection He1 as -> -> ->.
        split; [left|now split]. }
    destruct r1 as [[]|e]; [|injection H as _ <- _; now apply H1].
    destruct (for_each body l led1) as [[led2 tr2] r2] eqn:Hl.
    injection H as _ <- _.
    apply elem_of_app in He as [He|He]; [now apply H1|].
    destruct (IH _ _ _ _ Hl He) as (Hin & ? & ?). split; [now right|now split].
Qed.

(** A cycle that returns has opened every file of the loop whose timestamp
    was not the remembered one, and has upserted it when it has a first
    record. *)
Lemma for_each_upserts_complete l led led' tr f :
  for_each body l led = (led', tr, Ok tt) ->
  f ∈ l ->
  led !! f <> Some (getmtime fs f) ->
  Opened f ∈ tr
  /\ forall s, first_record f = Ok (Some s) ->
              exists d, get_stop f = Ok d /\ Upserted s d f ∈ tr.
Proof.
  revert led led' tr. induction l as [|g l IH]; intros led led' tr H Hin Hk.
  - inversion Hin.
  - rewrite for_each_cons in H. unfold mbind, M_bind in H.
    destruct (body g led) as [[led1 tr1] [[]|e]] eqn:Hg; [|discriminate].
    destruct (for_each body l led1) as [[led2 tr2] r2] eqn:Hl.
    injection H as _ <- ->.
    destruct (decide (g = f)) as [->|Hne].
    + rewrite (load_file_changed _ _ _ _ _ Hk) in Hg.
      injection Hg as _ <- Hr. split.
      * apply elem_of_app. left. right. left.
      * intros s Hs. rewrite Hs in *.
        destruct (get_stop f) as [d|e]; [|discriminate].
        exists d. split; [reflexivity|].
        apply elem_of_app. left. right. right. left.
    + apply elem_of_cons in Hin as [->|Hin]; [contradiction|].
      assert (led1 !! f <> Some (getmtime fs f)) as Hk1.
      { rewrite (load_file_ledger _ _ _ _ f _ _ _ _ Hg). now case_decide. }
      destruct (IH _ _ _ Hl Hin Hk1) as [Ho Hu]. split.
      * apply elem_of_app. now right.
      * intros s Hs. destruct (Hu s Hs) as (d & Hd & He).
        exists d. split; [exact Hd|]. apply elem_of_app. now right.
Qed.

(** After the loop body has run on the files [pre] and has then raised on
    [f], the loop over the same files does nothing up to [f] and goes on
    with the files after it. *)
Lemma for_each_retry pre f post led led1 tr1 led2 tr2 e :
  for_each body pre led = (led1, tr1, Ok tt) ->
  body f led1 = (led2, tr2, Raise e) ->
  for_each body (pre ++ f :: post) led = (led2, tr1 ++ tr2, Raise e)
  /\ for_each body (pre ++ f :: post) led2 = for_each body post led2.
Proof.
  intros Hpre Hf. split.
  - rewrite for_each_app, (bind_ok _ _ _ _ _ _ Hpre), for_each_cons.
    now rewrite (bind_raise _ _ _ _ _ _ Hf).
  - assert (forall g, g ∈ pre ++ [f] -> led2 !! g = Some (getmtime fs g)) as Hk.
    { intros g Hg. rewrite (load_file_ledger _ _ _ _ g _ _ _ _ Hf).
      case_decide as Hfg; [now subst|].
      apply elem_of_app in Hg as [Hg|Hg].
      - eapply for_each_marks; eauto.
      - apply list_elem_of_singleton in Hg. congruence. }
    change (pre ++ f :: post) with (pre ++ [f] ++ post).
    rewrite app_assoc, for_each_app.
    rewrite (bind_ok _ _ _ _ _ _ (for_each_known _ _ _ _ _ Hk)).
    now destruct (for_each body post led2) as [[led3 tr3] r3].
Qed.

End LoaderMore.

(** ** Refresh cycles of the two classes *)

Lemma class_load_file_body json_loads k fs :
  Catalog.class_load_file json_loads k fs
  = load_file fs (class_first_record json_loads k fs)
      (class_get_stop json_loads k fs).
Proof. now destruct k. Qed.

Lemma class_load_for_each json_loads k fs paths led :
  Catalog.class_load json_loads k fs paths led
  = for_each (load_file fs (class_first_record json_loads k fs)
                (class_get_stop json_loads k fs))
      (matched fs paths) led.
Proof. now rewrite class_load_matched, class_load_file_body. Qed.

(** X1. A refresh cycle, however it ends, changes the ledger only at
    matched files, and only to their current timestamp: every entry is the
    one before the cycle or the current timestamp of a matched file, and no
    entry is removed. *)
Theorem cycle_changes_only_matched_entries
    (json_loads : string -> option pyval) (k : catalog_class)
    (fs : filesystem) (paths : list pathlike) (led : gmap string Z) :
  let '(led', _, _) := Catalog.class_load json_loads k fs paths led in
  forall f,
    (led' !! f = led !! f
     \/ (f ∈ matched fs paths /\ led' !! f = Some (getmtime fs f)))
    /\ (is_Some (led !! f) -> is_Some (led' !! f)).
Proof.
  rewrite class_load_for_each.
  destruct (for_each _ _ _) as [[led' tr] r] eqn:H. intros f.
  pose proof (for_each_ledger _ _ _ _ _ _ _ _ f H) as Hf.
  split; [exact Hf|].
  intros Hs. destruct Hf as [->|[_ ->]]; [exact Hs|eauto].
Qed.

(** X2. A refresh cycle opens each file at most once and upserts it at most
    once, also when several patterns match the file. *)
Theorem cycle_opens_each_file_at_most_once
    (json_loads : string -> option pyval) (k : catalog_class)
    (fs : filesystem) (paths : list pathlike) (led : gmap string Z) :
  let '(_, tr, _) := Catalog.class_load json_loads k fs paths led in
  forall f, (count_opened f tr <= 1)%nat /\ (count_upserted f tr <= 1)%nat.
Proof.
  rewrite class_load_for_each.
  destruct (for_each _ _ _) as [[led' tr] r] eqn:H. intros f.
  exact (for_each_counts _ _ _ _ f _ _ _ _ H).
Qed.

(** The file [runs/a] is matched by both patterns and upserted once. *)
Example overlapping_patterns_one_upsert :
  matched (overlap_fs start_stop_text) [Str "runs/*"; Str "runs/a"]
  = ["runs/a"; "runs/a"]
  /\ Jsonl._load sample_loads (overlap_fs start_stop_text)
       [Str "runs/*"; Str "runs/a"] ∅
     = ({[ "runs/a" := 5 ]},
        [Marked "runs/a" 5; Opened "runs/a";
         Upserted (PyDict [("uid", PyStr "abc")]) (PyDict []) "runs/a"],
        Ok tt).
Proof. split; reflexivity. Qed.

(** X3. Every upsert of a refresh cycle is for a matched file, with the
    document of the file's first record as the start document and with
    what [get_stop] returns for the file as the stop document. *)
Theorem cycle_upserts_are_sound
    (json_loads : string -> option pyval) (k : catalog_class)
    (fs : filesystem) (paths : list pathlike) (led : gmap string Z) :
  let '(_, tr, _) := Catalog.class_load json_loads k fs paths led in
  forall start_doc stop_doc f,
    Upserted start_doc stop_doc f ∈ tr ->
    f ∈ matched fs paths
    /\ class_first_record json_loads k fs f = Ok (Some start_doc)
    /\ class_get_stop json_loads k fs f = Ok stop_doc.
Proof.
  rewrite class_load_for_each.
  destruct (for_each _ _ _) as [[led' tr] r] eqn:H.
  intros s d f He. exact (for_each_upserts_sound _ _ _ _ _ _ _ _ _ _ _ H He).
Qed.

(** X4. A refresh cycle that returns has opened every matched file whose
    timestamp was not the remembered one, and has upserted each of them
    that has a first record. *)
Theorem returned_cycle_upserts_every_changed_file
    (json_loads : string -> option pyval) (k : catalog_class)
    (fs : filesystem) (paths : list pathlike) (led led' : gmap string Z)
    (tr : list event) (f : string) :
  Catalog.class_load json_loads k fs paths led = (led', tr, Ok tt) ->
  f ∈ matched fs paths ->
  led !! f <> Some (getmtime fs f) ->
  Opened f ∈ tr
  /\ forall start_doc,
       class_first_record json_loads k fs f = Ok (Some start_doc) ->
       exists stop_doc,
         class_get_stop json_loads k fs f = Ok stop_doc
         /\ Upserted start_doc stop_doc f ∈ tr.
Proof.
  rewrite class_load_for_each. apply for_each_upserts_complete.
Qed.

Lemma returned_cycle_upserts_every_changed_file_witness :
  Opened "runs/a"
    ∈ [Marked "runs/a" 5; Opened "runs/a";
       Upserted (PyDict [("uid", PyStr "abc")]) (PyDict []) "runs/a"]
  /\ forall start_doc,
       class_first_record sample_loads BlueskyJSONLCatalog
         (sample_fs 5 start_stop_text Exhausted) "runs/a" = Ok (Some start_doc) ->
       exists stop_doc,
         class_get_stop sample_loads BlueskyJSONLCatalog
           (sample_fs 5 start_stop_text Exhausted) "runs/a" = Ok stop_doc
         /\ Upserted start_doc stop_doc "runs/a"
            ∈ [Marked "runs/a" 5; Opened "runs/a";
               Upserted (PyDict [("uid", PyStr "abc")]) (PyDict []) "runs/a"].
Proof.
  apply (returned_cycle_upserts_every_changed_file sample_loads
           BlueskyJSONLCatalog (sample_fs 5 start_stop_text Exhausted)
           [Str "runs/*"] ∅ {[ "runs/a" := 5 ]}).
  - reflexivity.
  - simpl. left.
  - vm_compute. discriminate.
Defined.

(** X5. When a refresh cycle raises on a file, the next cycle over the same
    filesystem skips that file and the files before it, and goes on with
    the files after it. *)
Theorem retry_goes_on_after_failed_file
    (json_loads : string -> option pyval) (k : catalog_class)
    (fs : filesystem) (paths : list pathlike)
    (pre post : list string) (f : string)
    (led led1 led2 : gmap string Z) (tr1 tr2 : list event) (e : exn) :
  matched fs paths = pre ++ f :: post ->
  for_each (Catalog.class_load_file json_loads k fs) pre led = (led1, tr1, Ok tt) ->
  Catalog.class_load_file json_loads k fs f led1 = (led2, tr2, Raise e) ->
  Catalog.class_load json_loads k fs paths led = (led2, tr1 ++ tr2, Raise e)
  /\ Catalog.class_load json_loads k fs paths led2
     = for_each (Catalog.class_load_file json_loads k fs) post led2.
Proof.
  intros Hm. rewrite !class_load_matched, Hm, class_load_file_body.
  apply for_each_retry.
Qed.

Lemma retry_goes_on_after_failed_file_witness :
  Catalog.class_load sample_loads BlueskyJSONLCatalog three_files_fs
    [Str "runs/*"] ∅
  = (<["runs/b" := 5]> {[ "runs/a" := 5 ]},
     [Marked "runs/a" 5; Opened "runs/a";
      Upserted (PyDict [("uid", PyStr "abc")]) (PyDict []) "runs/a"]
     ++ [Marked "runs/b" 5; Opened "runs/b"],
     Raise JSONDecodeError)
  /\ Catalog.class_load sample_loads BlueskyJSONLCatalog three_files_fs
       [Str "runs/*"] (<["runs/b" := 5]> {[ "runs/a" := 5 ]})
     = for_each (Catalog.class_load_file sample_loads BlueskyJSONLCatalog
                   three_files_fs)
         ["runs/c"] (<["runs/b" := 5]> {[ "runs/a" := 5 ]}).
Proof.
  apply (retry_goes_on_after_failed_file sample_loads BlueskyJSONLCatalog
           three_files_fs [Str "runs/*"] ["runs/a"] ["runs/c"] "runs/b"
           ∅ {[ "runs/a" := 5 ]});
    reflexivity.
Defined.

(** The cycle after the failure upserts the file after the failed one. *)
Example retry_loads_the_file_after :
  Catalog.class_load sample_loads BlueskyJSONLCatalog three_files_fs
    [Str "runs/*"] (<["runs/b" := 5]> {[ "runs/a" := 5 ]})
  = (<["runs/c" := 5]> (<["runs/b" := 5]> {[ "runs/a" := 5 ]}),
     [Marked "runs/c" 5; Opened "runs/c";
      Upserted (PyDict [("uid", PyStr "abc")]) (PyDict []) "runs/c"],
     Ok tt).
Proof. reflexivity. Qed.

(** ** The record streams *)

Section GenFacts.

Variable json_loads : string -> option pyval.

Lemma gen_lines_all ls recs :
  Jsonl.gen_lines json_loads ls = (recs, None)
  <-> Forall2 (line_gives json_loads) ls recs.
Proof.
  split.
  - revert recs. induction ls as [|l ls IH]; intros recs H; simpl in H.
    + injection H as <-. constructor.
    + destruct (json_loads l) as [v|] eqn:Hd; [|discriminate].
      destruct (unpack2 v) as [[name doc]|e] eqn:Hu; [|discriminate].
      destruct (Jsonl.gen_lines json_loads ls) as [rs e'].
      injection H as <- ->. constructor; [|now apply IH].
      exists v. now split.
  - induction 1 as [|l r ls recs (v & Hd & Hu) _ IH]; [reflexivity|].
    simpl. rewrite Hd, Hu, IH. now destruct r.
Qed.

End GenFacts.

(** X6. [gen] of the JSONL codec ends without an error exactly when every
    line of the file gives a record; it then yields the records of the
    lines, one for each line and in their order. *)
Theorem jsonl_gen_yields_every_line
    (json_loads : string -> option pyval) (text : string)
    (recs : list (pyval * pyval)) :
  (Jsonl.gen json_loads text = (recs, None)
   <-> Forall2 (line_gives json_loads) (splitlines text) recs)
  /\ (Jsonl.gen json_loads text = (recs, None) ->
      length recs = length (splitlines text)).
Proof.
  unfold Jsonl.gen. split; [apply gen_lines_all|].
  intros H. apply gen_lines_all in H. symmetry. eapply Forall2_length, H.
Qed.

(** X7. [gen] of the JSONL codec raises exactly at the first line that
    gives no record: it has yielded the records of the lines before, and
    the lines after are not decoded. The error is [JSONDecodeError] when
    the line does not decode, and the error of the unpacking when it
    decodes to something else than a name and a document. *)
Theorem jsonl_gen_raises_at_first_bad_line
    (json_loads : string -> option pyval) (text : string)
    (recs : list (pyval * pyval)) (e : exn) :
  Jsonl.gen json_loads text = (recs, Some e)
  <-> exists pre bad post,
        splitlines text = pre ++ bad :: post
        /\ Forall2 (line_gives json_loads) pre recs
        /\ line_fails json_loads bad e.
Proof.
  unfold Jsonl.gen. generalize (splitlines text) as ls. intros ls. split.
  - revert recs. induction ls as [|l ls IH]; intros recs H; simpl in H.
    + discriminate.
    + destruct (json_loads l) as [v|] eqn:Hd.
      * destruct (unpack2 v) as [[name doc]|e'] eqn:Hu.
        -- destruct (Jsonl.gen_lines json_loads ls) as [rs e'] eqn:Hg.
           injection H as <- ->.
           destruct (IH rs eq_refl) as (pre & bad & post & -> & Hpre & Hbad).
           exists (l :: pre), bad, post. split; [reflexivity|].
           split; [|exact Hbad]. constructor; [|exact Hpre].
           exists v. now split.
        -- injection H as <- <-. exists [], l, ls.
           split; [reflexivity|]. split; [constructor|]. right. eauto.
      * injection H as <- <-. exists [], l, ls.
        split; [reflexivity|]. split; [constructor|]. now left.
  - intros (pre & bad & post & -> & Hpre & Hbad).
    induction Hpre as [|l r pre recs (v & Hd & Hu) _ IH]; simpl.
    + destruct Hbad as [[-> ->]|(v & -> & ->)]; reflexivity.
    + rewrite Hd, Hu, IH. now destruct r.
Qed.

(** The stream of a file whose second line is not a record. *)
Example jsonl_gen_bad_second_line :
  Jsonl.gen sample_loads
    (String.concat (String LF "") [start_line; "[1, 2, 3]"; stop_line; ""])
  = ([(PyStr "start", PyDict [("uid", PyStr "abc")])], Some ValueError)
  /\ Jsonl.gen sample_loads
       (String.concat (String LF "") [start_line; "oops"; stop_line; ""])
     = ([(PyStr "start", PyDict [("uid", PyStr "abc")])], Some JSONDecodeError)
  /\ Jsonl.gen sample_loads start_stop_text
     = ([(PyStr "start", PyDict [("uid", PyStr "abc")]);
         (PyStr "stop", PyDict [])], None).
Proof. repeat split. Qed.

(** ** The stop document and the stream *)

Lemma has_content_chomp l : has_content (chomp l) = has_content l.
Proof.
  induction l as [|c l IH]; [reflexivity|].
  destruct l as [|c' l].
  - simpl. destruct (Ascii.eqb_spec c LF) as [->|_]; reflexivity.
  - change (chomp (String c (String c' l)))
      with (String c (chomp (String c' l))).
    change (has_content (String c (chomp (String c' l))))
      with (negb (is_space c) || has_content (chomp (String c' l))).
    now rewrite IH.
Qed.

Lemma last_map {A B} (f : A -> B) (l : list A) :
  last (map f l) = f <$> last l.
Proof.
  induction l as [|x [|y l] IH]; [reflexivity|reflexivity|].
  change (map f (x :: y :: l)) with (f x :: f y :: map f l).
  rewrite !last_cons_cons. exact IH.
Qed.

(** In a file without blank lines, [tail] gives the last line, without its
    terminator. *)
Lemma tail_last_line text :
  (forall l, l ∈ splitlines text -> has_content l = true) ->
  tail text = chomp <$> last (splitlines text).
Proof.
  intros H. unfold tail. rewrite <- last_map. f_equal.
  induction (splitlines text) as [|l ls IH]; [reflexivity|].
  simpl. rewrite filter_cons_True.
  - f_equal. apply IH. intros l' Hl'. apply H. now right.
  - rewrite has_content_chomp, (H l) by left. exact I.
Qed.

Section StopOfStream.

Variable json_loads : string -> option pyval.
Variable text : string.

(** The decoder skips the line terminator and rejects a blank line, as
    [json.loads] does. *)
Hypothesis loads_chomp :
  forall l, l ∈ splitlines text -> json_loads (chomp l) = json_loads l.
Hypothesis loads_blank :
  forall l, l ∈ splitlines text -> has_content l = false -> json_loads l = None.

Lemma decoded_lines_have_content recs :
  Forall2 (line_gives json_loads) (splitlines text) recs ->
  forall l, l ∈ splitlines text -> has_content l = true.
Proof.
  intros H l Hl. destruct (has_content l) eqn:Hc; [reflexivity|].
  pose proof (loads_blank l Hl Hc) as Hn.
  apply list_elem_of_lookup in Hl as [i Hi].
  destruct (Forall2_lookup_l _ _ _ _ _ H Hi) as (r & _ & v & Hv & _).
  congruence.
Qed.

Lemma get_stop_of_lines recs :
  Forall2 (line_gives json_loads) (splitlines text) recs ->
  Jsonl.get_stop json_loads text = Ok (last_stop recs).
Proof.
  intros H. unfold Jsonl.get_stop, last_stop.
  rewrite (tail_last_line _ (decoded_lines_have_content _ H)).
  pose proof (Forall2_last _ _ _ H) as Hl.
  destruct (last (splitlines text)) as [l|] eqn:Hll;
    inversion Hl as [l' r (v & Hd & Hu) Hl1 Hl2|]; [|reflexivity].
  assert (l ∈ splitlines text) as Hin by now apply last_Some_elem_of.
  simpl. rewrite (loads_chomp l Hin), Hd, Hu.
  assert (has_content (chomp l) = true) as Hc.
  { rewrite has_content_chomp. eapply decoded_lines_have_content; eauto. }
  destruct (String.eqb_spec (chomp l) "") as [He|_].
  - rewrite He in Hc. discriminate.
  - destruct r as [name doc]. now destruct (py_eq_str name "stop").
Qed.

Lemma first_record_of_lines r recs :
  Forall2 (line_gives json_loads) (splitlines text) (r :: recs) ->
  Jsonl.first_record json_loads text = Ok (Some (snd r)).
Proof.
  intros H. unfold Jsonl.first_record.
  pose proof (readline_first text) as H1.
  destruct (readline text) as [l1 rest]. simpl in H1. subst l1.
  inversion H as [|l r' ls recs' (v & Hd & Hu) _ Hl]. subst.
  simpl. rewrite Hd, Hu. now destruct r.
Qed.

End StopOfStream.

Ltac line_cases H :=
  vm_compute in H;
  repeat (apply elem_of_cons in H as [->|H]); [..|inversion H].

(** X8. For a text file all of whose lines give records, with a decoder
    that skips the line terminator and rejects a blank line as [json.loads]
    does, [get_stop] returns the document of the last record that [gen]
    yields when that record is named 'stop', and [None] otherwise (also
    for the empty file). *)
Theorem jsonl_get_stop_is_last_record_of_gen
    (json_loads : string -> option pyval) (text : string)
    (recs : list (pyval * pyval)) :
  (forall l, l ∈ splitlines text -> json_loads (chomp l) = json_loads l) ->
  (forall l, l ∈ splitlines text -> has_content l = false ->
             json_loads l = None) ->
  Jsonl.gen json_loads text = (recs, None) ->
  Jsonl.get_stop json_loads text = Ok (last_stop recs).
Proof.
  intros Hc Hb Hg. apply get_stop_of_lines; [exact Hc|exact Hb|].
  now apply gen_lines_all.
Qed.

Lemma jsonl_get_stop_is_last_record_of_gen_witness :
  Jsonl.get_stop sample_loads start_stop_text
  = Ok (last_stop [(PyStr "start", PyDict [("uid", PyStr "abc")]);
                   (PyStr "stop", PyDict [])]).
Proof.
  apply (jsonl_get_stop_is_last_record_of_gen sample_loads start_stop_text).
  - intros l Hl. line_cases Hl; reflexivity.
  - intros l Hl. line_cases Hl; discriminate.
  - reflexivity.
Defined.

(** X9. A text file all of whose lines give records, and whose timestamp
    is not the remembered one, is upserted without a raise: the start
    document is the document of its first record, whatever the name of
    that record, and the stop document is the document of its last record
    when that record is named 'stop', and [None] otherwise. *)
Theorem jsonl_load_file_well_formed
    (json_loads : string -> option pyval) (fs : filesystem) (f : string)
    (led : gmap string Z) (r : pyval * pyval) (recs : list (pyval * pyval)) :
  (forall l, l ∈ splitlines (read_text fs f) ->
             json_loads (chomp l) = json_loads l) ->
  (forall l, l ∈ splitlines (read_text fs f) -> has_content l = false ->
             json_loads l = None) ->
  Jsonl.gen json_loads (read_text fs f) = (r :: recs, None) ->
  led !! f <> Some (getmtime fs f) ->
  Jsonl.load_file json_loads fs f led
  = (<[f := getmtime fs f]> led,
     [Marked f (getmtime fs f); Opened f;
      Upserted (snd r) (last_stop (r :: recs)) f],
     Ok tt).
Proof.
  intros Hc Hb Hg Hk. apply gen_lines_all in Hg.
  unfold Jsonl.load_file. rewrite load_file_changed by exact Hk.
  rewrite (first_record_of_lines _ _ _ _ Hg).
  now rewrite (get_stop_of_lines _ _ Hc Hb _ Hg).
Qed.

Lemma jsonl_load_file_well_formed_witness :
  Jsonl.load_file sample_loads (sample_fs 5 start_stop_text Exhausted)
    "runs/a" ∅
  = (<["runs/a" := 5]> ∅,
     [Marked "runs/a" 5; Opened "runs/a";
      Upserted (PyDict [("uid", PyStr "abc")])
        (last_stop [(PyStr "start", PyDict [("uid", PyStr "abc")]);
                    (PyStr "stop", PyDict [])]) "runs/a"],
     Ok tt).
Proof.
  apply (jsonl_load_file_well_formed sample_loads
           (sample_fs 5 start_stop_text Exhausted) "runs/a" ∅
           (PyStr "start", PyDict [("uid", PyStr "abc")])
           [(PyStr "stop", PyDict [])]).
  - intros l Hl. line_cases Hl; reflexivity.
  - intros l Hl. line_cases Hl; discriminate.
  - reflexivity.
  - vm_compute. discriminate.
Defined.

(** X10. A text file whose first line decodes, but not to a name and a
    document, makes the cycle raise the error of the unpacking, with the
    ledger already written: the file counts as not ready only when the
    line does not decode at all, however many lines it has. *)
Theorem jsonl_first_line_not_a_pair_raises
    (json_loads : string -> option pyval) (fs : filesystem) (f : string)
    (led : gmap string Z) (v : pyval) (e : exn) :
  led !! f <> Some (getmtime fs f) ->
  json_loads (hd "" (splitlines (read_text fs f))) = Some v ->
  unpack2 v = Raise e ->
  Jsonl.load_file json_loads fs f led
  = (<[f := getmtime fs f]> led, [Marked f (getmtime fs f); Opened f], Raise e).
Proof.
  intros Hk Hd Hu. unfold Jsonl.load_file.
  rewrite load_file_changed by exact Hk.
  assert (Jsonl.first_record json_loads (read_text fs f) = Raise e) as ->.
  { unfold Jsonl.first_record.
    pose proof (readline_first (read_text fs f)) as H1.
    destruct (readline (read_text fs f)) as [l1 rest]. simpl in H1. subst l1.
    now rewrite Hd, Hu. }
  reflexivity.
Qed.

Lemma jsonl_first_line_not_a_pair_raises_witness :
  Jsonl.load_file sample_loads (sample_fs 5 "5" Exhausted) "runs/a" ∅
  = (<["runs/a" := 5]> ∅, [Marked "runs/a" 5; Opened "runs/a"], Raise TypeError).
Proof.
  apply (jsonl_first_line_not_a_pair_raises sample_loads
           (sample_fs 5 "5" Exhausted) "runs/a" ∅ (PyInt 5) TypeError).
  - vm_compute. discriminate.
  - reflexivity.
  - reflexivity.
Defined.

(** ** The msgpack codec *)

Lemma get_stop_yield_all init rest :
  (forall r, r ∈ init -> is_stop r = false) ->
  Msgpack.get_stop (yield_all init rest) = Msgpack.get_stop rest.
Proof.
  induction init as [|[name doc] init IH]; intros H; [reflexivity|].
  simpl. pose proof (H (name, doc)) as Hn. unfold is_stop in Hn.
  simpl in Hn. rewrite Hn by left. apply IH. intros r Hr. apply H. now right.
Qed.

Lemma yield_all_app a b rest :
  yield_all (a ++ b) rest = yield_all a (yield_all b rest).
Proof. unfold yield_all. apply fold_right_app. Qed.

(** X11. The scan of [get_stop] of the msgpack codec ends at the first
    record named 'stop': its document is returned whatever follows it in
    the file, a malformed frame too. When a malformed frame, or an object
    that does not unpack into a name and a document, comes before any
    record named 'stop', the scan raises there. *)
Theorem msgpack_get_stop_scan_ends_at_stop
    (init : list (pyval * pyval)) (rest : unpacker) :
  (forall r, r ∈ init -> is_stop r = false) ->
  (forall name doc,
      py_eq_str name "stop" = true ->
      Msgpack.get_stop (yield_all (init ++ [(name, doc)]) rest) = Ok doc)
  /\ Msgpack.get_stop (yield_all init Malformed) = Raise UnpackException
  /\ (forall o e,
        unpack2 o = Raise e ->
        Msgpack.get_stop (yield_all init (Yield o rest)) = Raise e).
Proof.
  intros H. split; [|split].
  - intros name doc Hs. rewrite yield_all_app.
    rewrite get_stop_yield_all by exact H. simpl. now rewrite Hs.
  - now rewrite get_stop_yield_all.
  - intros o e Hu. rewrite get_stop_yield_all by exact H. simpl.
    now rewrite Hu.
Qed.

Lemma msgpack_get_stop_scan_ends_at_stop_witness :
  Msgpack.get_stop
    (yield_all ([(PyStr "start", PyDict [])] ++ [(PyStr "stop", PyDict [("n", PyInt 1)])])
       Malformed)
  = Ok (PyDict [("n", PyInt 1)]).
Proof.
  refine (proj1 (msgpack_get_stop_scan_ends_at_stop
                   [(PyStr "start", PyDict [])] Malformed _) _ _ _).
  - intros r Hr. apply list_elem_of_singleton in Hr as ->. reflexivity.
  - reflexivity.
Defined.

(** X12. A binary file that holds records only, at least one, and whose
    timestamp is not the remembered one, is upserted without a raise: the
    start document is the document of its first record, whatever the name
    of that record, and the stop document is the document of the first
    record named 'stop', or [None] without one. *)
Theorem msgpack_load_file_well_formed
    (fs : filesystem) (f : string) (led : gmap string Z)
    (name doc : pyval) (recs : list (pyval * pyval)) :
  read_msgpack fs f = stream_of ((name, doc) :: recs) ->
  led !! f <> Some (getmtime fs f) ->
  Msgpack.load_file fs f led
  = (<[f := getmtime fs f]> led,
     [Marked f (getmtime fs f); Opened f;
      Upserted doc (first_stop ((name, doc) :: recs)) f],
     Ok tt).
Proof.
  intros Hr Hk. unfold Msgpack.load_file.
  rewrite load_file_changed by exact Hk.
  rewrite Hr, msgpack_get_stop_first_stop. reflexivity.
Qed.

Lemma msgpack_load_file_well_formed_witness :
  Msgpack.load_file (sample_fs 5 "" (stream_of stop_then_event)) "runs/a" ∅
  = (<["runs/a" := 5]> ∅,
     [Marked "runs/a" 5; Opened "runs/a";
      Upserted (PyDict [("uid", PyStr "abc")]) (first_stop stop_then_event)
        "runs/a"],
     Ok tt).
Proof.
  apply (msgpack_load_file_well_formed
           (sample_fs 5 "" (stream_of stop_then_event)) "runs/a" ∅
           (PyStr "start") (PyDict [("uid", PyStr "abc")])
           [(PyStr "stop", PyDict [("exit_status", PyStr "success")]);
            (PyStr "event", PyDict [])]).
  - reflexivity.
  - vm_compute. discriminate.
Defined.

(** ** Instances *)

Lemma second_cycle_is_idle_witness :
  Catalog._load sample_loads (sample_fs 5 "oops" Exhausted)
    {[ 0%nat := jsonl_catalog {[ "runs/a" := 5 ]} ]} 0%nat
  = Some ({[ 0%nat := jsonl_catalog {[ "runs/a" := 5 ]} ]}, [], Ok tt).
Proof.
  apply (second_cycle_is_idle sample_loads
           (sample_fs 5 start_stop_text Exhausted)
           (sample_fs 5 "oops" Exhausted)
           {[ 0%nat := jsonl_catalog ∅ ]}
           {[ 0%nat := jsonl_catalog {[ "runs/a" := 5 ]} ]}
           0%nat (jsonl_catalog ∅)
           [Marked "runs/a" 5; Opened "runs/a";
            Upserted (PyDict [("uid", PyStr "abc")]) (PyDict []) "runs/a"]).
  - reflexivity.
  - vm_compute. reflexivity.
  - reflexivity.
  - intros f _. reflexivity.
Defined.

Lemma cycle_upserts_are_sound_witness :
  "runs/a" ∈ matched (sample_fs 5 start_stop_text Exhausted) [Str "runs/*"]
  /\ class_first_record sample_loads BlueskyJSONLCatalog
       (sample_fs 5 start_stop_text Exhausted) "runs/a"
     = Ok (Some (PyDict [("uid", PyStr "abc")]))
  /\ class_get_stop sample_loads BlueskyJSONLCatalog
       (sample_fs 5 start_stop_text Exhausted) "runs/a"
     = Ok (PyDict []).
Proof.
  pose proof (cycle_upserts_are_sound sample_loads BlueskyJSONLCatalog
                (sample_fs 5 start_stop_text Exhausted) [Str "runs/*"] ∅) as H.
  assert (Catalog.class_load sample_loads BlueskyJSONLCatalog
            (sample_fs 5 start_stop_text Exhausted) [Str "runs/*"] ∅
          = ({[ "runs/a" := 5 ]},
             [Marked "runs/a" 5; Opened "runs/a";
              Upserted (PyDict [("uid", PyStr "abc")]) (PyDict []) "runs/a"],
             Ok tt)) as Hrun by reflexivity.
  rewrite Hrun in H. apply H. right. right. left.
Defined.



(** ** Chains of searches *)

Lemma truthy_and_ qs : truthy (and_ qs) = true.
Proof. reflexivity. Qed.

(** X15. Searches on a catalog that has a non-empty filter nest: when the
    base class keeps a non-empty filter as it is given, the catalog that a
    chain of searches gives has the filter that wraps, search after search,
    the filter so far and the new query in [$and]. *)
Theorem searches_nest_filters
    (store_query : pyval -> pyval) (qs : list pyval)
    (st : gmap nat catalog) (self : nat) (c : catalog) :
  (forall q, truthy q = true -> store_query q = q) ->
  st !! self = Some c ->
  truthy (_query c) = true ->
  exists st' derived cd,
    search_all store_query st self qs = Some (st', derived)
    /\ st' !! derived = Some cd
    /\ _query cd = nest_filters (_query c) qs.
Proof.
  intros Hkeep. revert st self c.
  induction qs as [|q qs IH]; intros st self c Hc Ht.
  - exists st, self, c. repeat split. exact Hc.
  - simpl. rewrite (search_unfold _ _ _ _ _ Hc).
    destruct (Catalog.__init__ _ _ _ _ _ _) as [st1 d1] eqn:Hi.
    destruct (init_fresh _ _ _ _ _ _ _ _ Hi) as (_ & Hd1 & _).
    unfold search_query in Hd1. rewrite Ht in Hd1.
    rewrite Hkeep in Hd1 by reflexivity.
    destruct (IH _ _ _ Hd1 eq_refl) as (st' & d & cd & Hs & Hd & Hq).
    exists st', d, cd. repeat split; assumption.
Qed.

Lemma searches_nest_filters_witness :
  exists st' derived cd,
    search_all or_empty
      {[ 0%nat := {| cls := BlueskyMsgpackCatalog; paths := [Str "runs/*"];
                     _filename_to_mtime := ∅; _query := query_a;
                     attrs := no_attrs |} ]} 0%nat [query_b; query_a]
    = Some (st', derived)
    /\ st' !! derived = Some cd
    /\ _query cd = and_ [and_ [query_a; query_b]; query_a].
Proof.
  apply (searches_nest_filters or_empty [query_b; query_a]
           {[ 0%nat := {| cls := BlueskyMsgpackCatalog; paths := [Str "runs/*"];
                          _filename_to_mtime := ∅; _query := query_a;
                          attrs := no_attrs |} ]} 0%nat
           {| cls := BlueskyMsgpackCatalog; paths := [Str "runs/*"];
              _filename_to_mtime := ∅; _query := query_a;
              attrs := no_attrs |}).
  - intros q Hq. unfold or_empty. now rewrite Hq.
  - reflexivity.
  - reflexivity.
Defined.

(** X16. A chain of searches leaves every instance that existed before as
    it was, and the catalog that it gives has the class and the paths of
    the first one; after at least one search it is a new instance, with an
    empty ledger. *)
Theorem searches_keep_paths_and_instances
    (store_query : pyval -> pyval) (qs : list pyval)
    (st : gmap nat catalog) (self : nat) (c : catalog) :
  st !! self = Some c ->
  exists st' derived cd,
    search_all store_query st self qs = Some (st', derived)
    /\ st' !! derived = Some cd
    /\ cls cd = cls c
    /\ paths cd = paths c
    /\ (forall i, is_Some (st !! i) -> st' !! i = st !! i)
    /\ (qs <> [] -> st !! derived = None /\ _filename_to_mtime cd = ∅).
Proof.
  revert st self c. induction qs as [|q qs IH]; intros st self c Hc.
  - exists st, self, c. repeat split; try assumption; congruence.
  - simpl. rewrite (search_unfold _ _ _ _ _ Hc).
    destruct (Catalog.__init__ _ _ _ _ _ _) as [st1 d1] eqn:Hi.
    destruct (init_fresh _ _ _ _ _ _ _ _ Hi) as (Hnew & Hd1 & Hother).
    destruct (IH _ _ _ Hd1) as (st' & d & cd & Hs & Hd & Hcls & Hp & Hold & Hfresh).
    assert (forall i, is_Some (st !! i) -> st' !! i = st !! i) as Hold'.
    { intros i Hi'. assert (i <> d1) as Hne.
      { intros ->. rewrite Hnew in Hi'. now destruct Hi'. }
      rewrite <- (Hother i Hne). apply Hold. now rewrite (Hother i Hne). }
    exists st', d, cd. split; [exact Hs|]. split; [exact Hd|].
    split; [exact Hcls|]. split; [exact Hp|]. split; [exact Hold'|].
    intros _. destruct qs as [|q' qs].
    + simpl in Hs. injection Hs as <- <-. rewrite Hd1 in Hd.
      injection Hd as <-. now split.
    + destruct Hfresh as [Hn He]; [discriminate|]. split; [|exact He].
      destruct (st !! d) as [x|] eqn:Hx; [|reflexivity].
      assert (st' !! d = Some x) as Hx' by (rewrite Hold'; eauto).
      assert (d <> d1) as Hne by (intros ->; congruence).
      rewrite (Hother d Hne), Hx in Hn. discriminate.
Qed.

Lemma searches_keep_paths_and_instances_witness :
  exists st' derived cd,
    search_all or_empty {[ 0%nat := jsonl_catalog {[ "runs/a" := 5 ]} ]}
      0%nat [query_a; query_b] = Some (st', derived)
    /\ st' !! derived = Some cd
    /\ cls cd = BlueskyJSONLCatalog
    /\ paths cd = [Str "runs/*"]
    /\ st' !! 0%nat = Some (jsonl_catalog {[ "runs/a" := 5 ]})
    /\ _filename_to_mtime cd = ∅.
Proof.
  destruct (searches_keep_paths_and_instances or_empty [query_a; query_b]
              {[ 0%nat := jsonl_catalog {[ "runs/a" := 5 ]} ]} 0%nat
              (jsonl_catalog {[ "runs/a" := 5 ]}))
    as (st' & d & cd & H1 & H2 & H3 & H4 & H5 & H6).
  - reflexivity.
  - exists st', d, cd. split; [exact H1|]. split; [exact H2|].
    split; [exact H3|]. split; [exact H4|]. split.
    + rewrite H5; [reflexivity|]. eexists. reflexivity.
    + apply H6. discriminate.
Defined.

(** ** The two codecs on the same records *)

Lemma first_stop_last_stop init (r : pyval * pyval) :
  (forall x, x ∈ init -> is_stop x = false) ->
  first_stop (init ++ [r]) = last_stop (init ++ [r]).
Proof.
  intros H. unfold last_stop. rewrite last_snoc. unfold first_stop.
  induction init as [|x init IH].
  - simpl. unfold is_stop. destruct r as [name doc]. simpl.
    now destruct (py_eq_str name "stop").
  - simpl. rewrite (H x) by left. apply IH. intros y Hy. apply H. now right.
Qed.

(** X17. The two codecs agree on a file that holds the same records, all
    well formed, when no record before the last one is named 'stop': the
    two [get_stop] return the same, and the two loaders do the same with
    the file. *)
Theorem codecs_agree_when_stop_is_last
    (json_loads : string -> option pyval) (fs : filesystem) (f : string)
    (led : gmap string Z) (init : list (pyval * pyval)) (r : pyval * pyval) :
  (forall l, l ∈ splitlines (read_text fs f) ->
             json_loads (chomp l) = json_loads l) ->
  (forall l, l ∈ splitlines (read_text fs f) -> has_content l = false ->
             json_loads l = None) ->
  Jsonl.gen json_loads (read_text fs f) = (init ++ [r], None) ->
  read_msgpack fs f = stream_of (init ++ [r]) ->
  (forall x, x ∈ init -> is_stop x = false) ->
  Jsonl.get_stop json_loads (read_text fs f)
  = Msgpack.get_stop (read_msgpack fs f)
  /\ Jsonl.load_file json_loads fs f led = Msgpack.load_file fs f led.
Proof.
  intros Hc Hb Hg Hm Hs. apply gen_lines_all in Hg.
  assert (Jsonl.get_stop json_loads (read_text fs f)
          = Msgpack.get_stop (read_msgpack fs f)) as Hstop.
  { rewrite (get_stop_of_lines _ _ Hc Hb _ Hg), Hm.
    now rewrite msgpack_get_stop_first_stop, first_stop_last_stop. }
  split; [exact Hstop|].
  unfold Jsonl.load_file, Msgpack.load_file.
  destruct (decide (led !! f = Some (getmtime fs f))) as [Hk|Hk].
  - now rewrite !load_file_known.
  - rewrite !load_file_changed by exact Hk. rewrite Hstop.
    destruct (init ++ [r]) as [|[name doc] recs] eqn:Hrecs.
    { now destruct init. }
    rewrite (first_record_of_lines _ _ _ _ Hg). rewrite Hm. reflexivity.
Qed.

Lemma codecs_agree_when_stop_is_last_witness :
  Jsonl.get_stop sample_loads start_stop_text
  = Msgpack.get_stop
      (stream_of ([(PyStr "start", PyDict [("uid", PyStr "abc")])]
                  ++ [(PyStr "stop", PyDict [])]))
  /\ Jsonl.load_file sample_loads
       (sample_fs 5 start_stop_text
          (stream_of ([(PyStr "start", PyDict [("uid", PyStr "abc")])]
                      ++ [(PyStr "stop", PyDict [])])))
       "runs/a" ∅
     = Msgpack.load_file
         (sample_fs 5 start_stop_text
            (stream_of ([(PyStr "start", PyDict [("uid", PyStr "abc")])]
                        ++ [(PyStr "stop", PyDict [])])))
         "runs/a" ∅.
Proof.
  apply (codecs_agree_when_stop_is_last sample_loads
           (sample_fs 5 start_stop_text
              (stream_of ([(PyStr "start", PyDict [("uid", PyStr "abc")])]
                          ++ [(PyStr "stop", PyDict [])])))
           "runs/a" ∅
           [(PyStr "start", PyDict [("uid", PyStr "abc")])]
           (PyStr "stop", PyDict [])).
  - intros l Hl. line_cases Hl; reflexivity.
  - intros l Hl. line_cases Hl; discriminate.
  - reflexivity.
  - reflexivity.
  - intros x Hx. apply list_elem_of_singleton in Hx as ->. reflexivity.
Defined.

(** The codecs differ on a 'stop' record that is not the last one: the
    text codec looks at the last line only. *)
Example codecs_differ_on_earlier_stop :
  Jsonl.get_stop sample_loads
    (String.concat (String LF "") [stop_line; start_line; ""]) = Ok PyNone
  /\ Msgpack.get_stop
       (stream_of [(PyStr "stop", PyDict []);
                   (PyStr "start", PyDict [("uid", PyStr "abc")])])
     = Ok (PyDict []).
Proof. split; reflexivity. Qed.

(** ** Construction *)

